(** * main.py: date distance, lottery draw, phone normaliser, upcoming birthdays

    A shallow embedding of the four functions of [src/main.py] and of the
    parts of the Python runtime they call ([str], [re], [datetime],
    [random.sample], [list.sort]), followed by the properties the
    specification states about them.

    Conventions.
    - A Python [str] is a [string]; its characters are the code points
      U+0000..U+00FF, and the character classes below are Python's on that
      range.
    - A Python [int] is a [Z].
    - A [Dict[str, str]] is a [gmap string string].
    - The two reads of the clock, [datetime.today().date()], are the
      parameter [today] of the functions that make them.
    - An exception that leaves a function is the [Raise] of a [result]. *)

From Stdlib Require Import ZArith Lia Ascii String.
From Stdlib Require Import DecimalString DecimalN DecimalPos.
From stdpp Require Import base option list gmap strings sorting.

Local Open Scope Z_scope.

(** ** Exceptions *)

Inductive exn : Type :=
| ValueError (msg : string)   (* raised by the program itself, with its text *)
| ValueError_lib              (* a ValueError of the runtime; its text is not modelled *)
| KeyError (key : string)
| OverflowError_lib.          (* the OverflowError of date arithmetic *)

Inductive result (A : Type) : Type :=
| Ok (a : A)
| Raise (e : exn).
Arguments Ok {A} a.
Arguments Raise {A} e.

Definition bind {A B : Type} (r : result A) (k : A -> result B) : result B :=
  match r with
  | Ok a => k a
  | Raise e => Raise e
  end.

Notation "x <- r ;; k" := (bind r (fun x => k))
  (at level 100, r at next level, right associativity, only parsing).

(** ** [str] methods and [re.sub] *)

Module PyStr.

Definition code (c : ascii) : Z := Z.of_N (N_of_ascii c).

(** [str.isspace] on one character: TAB LF VT FF CR, FS GS RS US, SPACE,
    NEL (U+0085) and NBSP (U+00A0). *)
Definition isspace (c : ascii) : bool :=
  let n := code c in
  ((9 <=? n) && (n <=? 13)) || ((28 <=? n) && (n <=? 32))
  || (n =? 133) || (n =? 160).

(** The regular-expression class [\d]: a decimal digit.  Up to U+00FF the
    decimal digits are '0' to '9'; the digits of other scripts, which [\d]
    and [int] take as well, lie above U+00FF and are no characters of a
    [string]. *)
Definition isdigit (c : ascii) : bool :=
  let n := code c in (48 <=? n) && (n <=? 57).

(** The class [\D] is the complement of [\d]. *)
Definition nondigit (c : ascii) : bool := negb (isdigit c).

Fixpoint lstrip (s : string) : string :=
  match s with
  | String c s' => if isspace c then lstrip s' else s
  | EmptyString => EmptyString
  end.

Fixpoint rstrip (s : string) : string :=
  match s with
  | String c s' =>
      match rstrip s' with
      | EmptyString => if isspace c then EmptyString else String c EmptyString
      | r => String c r
      end
  | EmptyString => EmptyString
  end.

(** [s.strip()] *)
Definition strip (s : string) : string := rstrip (lstrip s).

(** [s.startswith(p)] *)
Fixpoint startswith (s p : string) {struct p} : bool :=
  match p, s with
  | EmptyString, _ => true
  | String a p', String b s' => if Ascii.eqb a b then startswith s' p' else false
  | String _ _, EmptyString => false
  end.

(** [s[n:]] for [n >= 0] *)
Fixpoint slice_from (n : nat) (s : string) : string :=
  match n, s with
  | O, _ => s
  | S n', String _ s' => slice_from n' s'
  | S _, EmptyString => EmptyString
  end.

(** [re.sub(cls, repl, s)] for a pattern [cls] that is one character
    class: every character of the class is a match, and each is replaced
    by [repl]. *)
Fixpoint re_sub (cls : ascii -> bool) (repl s : string) : string :=
  match s with
  | String c s' =>
      if cls c then (repl ++ re_sub cls repl s')%string
      else String c (re_sub cls repl s')
  | EmptyString => EmptyString
  end.

End PyStr.

(** ** [normalize_phone] (main.py, lines 49-66) *)

Definition normalize_phone (phone_number : string) : string :=
  let stripped := PyStr.strip phone_number in
  if PyStr.startswith stripped "+" then
    let digits := PyStr.re_sub PyStr.nondigit "" (PyStr.slice_from 1 stripped) in
    ("+" ++ digits)%string
  else
    let digits := PyStr.re_sub PyStr.nondigit "" stripped in
    if PyStr.startswith digits "380" then ("+" ++ digits)%string
    else ("+38" ++ digits)%string.

(** The algorithm of the specification (section 4.3), step by step, on the
    list of characters of the input. *)
Module PhoneSpec.

Fixpoint drop_while {A} (P : A -> bool) (l : list A) : list A :=
  match l with
  | x :: l' => if P x then drop_while P l' else l
  | [] => []
  end.

(** Step 1: trim leading and trailing whitespace. *)
Definition trim (l : list ascii) : list ascii :=
  rev (drop_while PyStr.isspace (rev (drop_while PyStr.isspace l))).

(** "strip all non-digit characters" *)
Definition digits_of (l : list ascii) : list ascii :=
  List.filter PyStr.isdigit l.

Definition normalize (phone : string) : string :=
  let trimmed := trim (list_ascii_of_string phone) in
  match trimmed with
  | "+"%char :: remainder =>
      (* step 2 *)
      string_of_list_ascii ("+"%char :: digits_of remainder)
  | _ =>
      (* step 3 *)
      let ds := digits_of trimmed in
      match ds with
      | "3"%char :: "8"%char :: "0"%char :: _ =>
          string_of_list_ascii ("+"%char :: ds)
      | _ =>
          string_of_list_ascii ("+"%char :: "3"%char :: "8"%char :: ds)
      end
  end.

End PhoneSpec.

(** Canonical phone format (glossary): '+' followed only by digits. *)
Definition canonical_phone (s : string) : bool :=
  PyStr.startswith s "+"
  && forallb PyStr.isdigit (list_ascii_of_string (PyStr.slice_from 1 s)).

(** ** The [datetime] module: [date], ordinals, [strptime], [strftime] *)

Module Datetime.

Record date : Type := Date { year : Z; month : Z; day : Z }.

Definition MINYEAR : Z := 1.
Definition MAXYEAR : Z := 9999.
Definition MAXORDINAL : Z := 3652059.   (* date(9999, 12, 31).toordinal() *)

Definition DAYS_IN_MONTH : list Z :=
  [-1; 31; 28; 31; 30; 31; 30; 31; 31; 30; 31; 30; 31].
Definition DAYS_BEFORE_MONTH : list Z :=
  [-1; 0; 31; 59; 90; 120; 151; 181; 212; 243; 273; 304; 334].

Definition index (l : list Z) (i : Z) : Z := nth (Z.to_nat i) l 0.

Definition is_leap (y : Z) : bool :=
  (y mod 4 =? 0) && (negb (y mod 100 =? 0) || (y mod 400 =? 0)).

Definition days_before_year (y : Z) : Z :=
  let y := y - 1 in
  y * 365 + y / 4 - y / 100 + y / 400.

Definition days_in_month (y m : Z) : Z :=
  if (m =? 2) && is_leap y then 29 else index DAYS_IN_MONTH m.

Definition days_before_month (y m : Z) : Z :=
  index DAYS_BEFORE_MONTH m + (if (m >? 2) && is_leap y then 1 else 0).

Definition ymd2ord (y m d : Z) : Z :=
  days_before_year y + days_before_month y m + d.

Definition DI400Y : Z := 146097.   (* days_before_year 401 *)
Definition DI100Y : Z := 36524.    (* days_before_year 101 *)
Definition DI4Y : Z := 1461.       (* days_before_year 5 *)

Definition ord2ymd (n : Z) : date :=
  let n := n - 1 in
  let n400 := n / DI400Y in
  let n := n mod DI400Y in
  let year := n400 * 400 + 1 in
  let n100 := n / DI100Y in
  let n := n mod DI100Y in
  let n4 := n / DI4Y in
  let n := n mod DI4Y in
  let n1 := n / 365 in
  let n := n mod 365 in
  let year := year + n100 * 100 + n4 * 4 + n1 in
  if (n1 =? 4) || (n100 =? 4) then Date (year - 1) 12 31
  else
    let leapyear := (n1 =? 3) && (negb (n4 =? 24) || (n100 =? 3)) in
    let month := Z.shiftr (n + 50) 5 in
    let preceding :=
      index DAYS_BEFORE_MONTH month
      + (if (month >? 2) && leapyear then 1 else 0) in
    if preceding >? n then
      let month := month - 1 in
      let preceding :=
        preceding - (index DAYS_IN_MONTH month
                     + (if (month =? 2) && leapyear then 1 else 0)) in
      Date year month (n - preceding + 1)
    else Date year month (n - preceding + 1).

(** The check every [date] constructor runs; a Python [date] always
    satisfies it. *)
Definition valid_date (d : date) : bool :=
  (MINYEAR <=? year d) && (year d <=? MAXYEAR)
  && (1 <=? month d) && (month d <=? 12)
  && (1 <=? day d) && (day d <=? days_in_month (year d) (month d)).

(** [date(y, m, d)]; [None] is its ValueError. *)
Definition mkdate (y m d : Z) : option date :=
  if valid_date (Date y m d) then Some (Date y m d) else None.

(** [d.replace(year=.., month=.., day=..)], each keyword optional. *)
Definition replace (d : date) (y m dd : option Z) : option date :=
  mkdate (default (year d) y) (default (month d) m) (default (day d) dd).

Definition toordinal (d : date) : Z := ymd2ord (year d) (month d) (day d).
Definition fromordinal (n : Z) : date := ord2ymd n.

(** [d.weekday()]: Monday is 0, Sunday is 6. *)
Definition weekday (d : date) : Z := (toordinal d + 6) mod 7.

(** [d1 < d2] compares the triples (year, month, day). *)
Definition lt (d1 d2 : date) : bool :=
  (year d1 <? year d2)
  || ((year d1 =? year d2)
      && ((month d1 <? month d2)
          || ((month d1 =? month d2) && (day d1 <? day d2)))).

(** [(d1 - d2).days] *)
Definition sub_days (d1 d2 : date) : Z := toordinal d1 - toordinal d2.

(** [d + timedelta(days=n)]; [None] is its OverflowError. *)
Definition add_days (d : date) (n : Z) : option date :=
  let o := toordinal d + n in
  if (0 <? o) && (o <=? MAXORDINAL) then Some (fromordinal o) else None.

End Datetime.

(** ** Regular expressions, as far as [_strptime] builds them *)

Module Re.

Inductive regex : Type :=
| Chr (c : ascii)                  (* one literal character *)
| Rng (lo hi : ascii)              (* [lo-hi] *)
| Dig                              (* \d *)
| Cat (r1 r2 : regex)              (* r1 r2 *)
| Alt (r1 r2 : regex)              (* r1|r2 *)
| Grp (name : ascii) (r : regex)   (* (?P<name>r) *)
| Eps.                             (* the empty pattern *)

(** One way of matching: the text matched, the named groups it set and
    the rest of the subject. *)
Definition outcome : Type := string * list (ascii * string) * string.

Definition one_char (P : ascii -> bool) (s : string) : list outcome :=
  match s with
  | String a s' => if P a then [(String a EmptyString, [], s')] else []
  | EmptyString => []
  end.

(** Every way [r] matches at the start of [s], in the order in which a
    backtracking matcher finds them. *)
Fixpoint run (r : regex) (s : string) : list outcome :=
  match r with
  | Chr c => one_char (Ascii.eqb c) s
  | Rng lo hi =>
      one_char (fun a => (PyStr.code lo <=? PyStr.code a)
                         && (PyStr.code a <=? PyStr.code hi)) s
  | Dig => one_char PyStr.isdigit s
  | Cat r1 r2 =>
      flat_map (fun '(t1, g1, s1) =>
                  map (fun '(t2, g2, s2) => ((t1 ++ t2)%string, g1 ++ g2, s2))
                      (run r2 s1))
               (run r1 s)
  | Alt r1 r2 => run r1 s ++ run r2 s
  | Grp name r' => map (fun '(t, g, s') => (t, (name, t) :: g, s')) (run r' s)
  | Eps => [(EmptyString, [], s)]
  end.

(** [re.match]: the first way, if there is one. *)
Definition match_ (r : regex) (s : string) : option outcome := head (run r s).

Fixpoint group (g : list (ascii * string)) (name : ascii) : option string :=
  match g with
  | (n, t) :: g' => if Ascii.eqb n name then Some t else group g' name
  | [] => None
  end.

End Re.

Module Strptime.
Import Re Datetime.

Definition alts (rs : list regex) (last : regex) : regex := foldr Alt last rs.

(** The entries of [TimeRE] for the three directives main.py uses:
    %Y = (?P<Y>\d\d\d\d),  %m = (?P<m>1[0-2]|0[1-9]|[1-9]),
    %d = (?P<d>3[0-1]|[1-2]\d|0[1-9]|[1-9]| [1-9]). *)
Definition directive (c : ascii) : option regex :=
  if Ascii.eqb c "Y" then
    Some (Grp "Y" (Cat Dig (Cat Dig (Cat Dig Dig))))
  else if Ascii.eqb c "m" then
    Some (Grp "m" (alts [Cat (Chr "1") (Rng "0" "2");
                         Cat (Chr "0") (Rng "1" "9")]
                        (Rng "1" "9")))
  else if Ascii.eqb c "d" then
    Some (Grp "d" (alts [Cat (Chr "3") (Rng "0" "1");
                         Cat (Rng "1" "2") Dig;
                         Cat (Chr "0") (Rng "1" "9");
                         Rng "1" "9"]
                        (Cat (Chr " ") (Rng "1" "9"))))
  else None.

(** [TimeRE.pattern]: a directive becomes its entry, any other character
    stands for itself. Whitespace in a format and directives other than
    the three above do not occur in main.py; [None] for them. (The
    pattern is compiled with IGNORECASE, which changes nothing for digits,
    '-', '.' and ' '.) *)
Fixpoint pattern (format : string) : option (list regex) :=
  match format with
  | EmptyString => Some []
  | String "%" (String c rest) =>
      r ← directive c; rs ← pattern rest; Some (r :: rs)
  | String c rest =>
      if PyStr.isspace c || Ascii.eqb c "%" then None
      else rs ← pattern rest; Some (Chr c :: rs)
  end.

(** The pattern is the sequence of its parts. *)
Definition sequence (rs : list regex) : regex := foldr Cat Eps rs.

(** [int(text)] for a text of decimal digits with optional whitespace
    around it (signs and underscores never reach it here). *)
Fixpoint digits_value (acc : Z) (s : string) : option Z :=
  match s with
  | EmptyString => Some acc
  | String c s' =>
      if PyStr.isdigit c then digits_value (acc * 10 + (PyStr.code c - 48)) s'
      else None
  end.

Definition int (text : string) : option Z :=
  match PyStr.strip text with
  | EmptyString => None
  | t => digits_value 0 t
  end.

(** The value of the directive [name]: the integer of its group, or
    [default] when the format has no such directive. *)
Definition field (groups : list (ascii * string)) (name : ascii) (default : Z)
    : option Z :=
  match group groups name with
  | Some text => int text
  | None => Some default
  end.

(** [datetime.strptime(data_string, format).date()]; [None] is the
    ValueError strptime raises: no match, unconverted data after the
    match, or a year, month and day that are no date. *)
Definition strptime (data_string format : string) : option date :=
  rs ← pattern format;
  found ← match_ (sequence rs) data_string;
  let '(_, groups, rest) := found in
  if String.eqb rest EmptyString then
    y ← field groups "Y" 1900;
    m ← field groups "m" 1;
    d ← field groups "d" 1;
    mkdate y m d
  else None.

(** Decimal digits of a non-negative integer. *)
Definition decimal (n : Z) : string :=
  NilZero.string_of_uint (N.to_uint (Z.to_N n)).

(** %m and %d: two digits, zero-padded. *)
Definition pad2 (n : Z) : string :=
  if n <? 10 then String "0" (decimal n) else decimal n.

(** [d.strftime(format)] for %Y, %m, %d and literal characters. The C
    library prints %Y as the decimal year, which has four digits from
    year 1000 on. *)
Fixpoint strftime (d : date) (format : string) : string :=
  match format with
  | EmptyString => EmptyString
  | String "%" (String c rest) =>
      let field :=
        if Ascii.eqb c "Y" then decimal (year d)
        else if Ascii.eqb c "m" then pad2 (month d)
        else if Ascii.eqb c "d" then pad2 (day d)
        else String "%" (String c EmptyString) in
      (field ++ strftime d rest)%string
  | String c rest => String c (strftime d rest)
  end.

End Strptime.

Import Datetime.

(** ** [get_days_from_today] (main.py, lines 7-23) *)

Definition invalid_date_format : string :=
  "Invalid date format. Expected 'YYYY-MM-DD'.".

Definition get_days_from_today (today : date) (date_str : string) : result Z :=
  input_date <-
    match Strptime.strptime date_str "%Y-%m-%d" with
    | Some d => Ok d
    | None => Raise (ValueError invalid_date_format)
    end ;;
  Ok (sub_days today input_date).

(** ** [random.sample] and [list.sort] *)

Module Random.

(** [sample pop k res]: [res] lists [k] elements of [pop] in the order
    they were selected, each selection removing the selected position
    from the pool (sampling without replacement). *)
Inductive sample {A : Type} : list A -> nat -> list A -> Prop :=
| sample_nil pop : sample pop 0 []
| sample_cons l1 x l2 k res :
    sample (l1 ++ l2) k res -> sample (l1 ++ x :: l2) (S k) (x :: res).

(** The outcomes of [random.sample(population, k)]: a ValueError when
    [k] is negative or larger than the population, any selection
    otherwise. *)
Definition sample_outcome {A : Type} (population : list A) (k : Z)
    (out : result (list A)) : Prop :=
  if (k <? 0) || (Z.of_nat (length population) <? k) then
    out = Raise ValueError_lib
  else
    exists res, sample population (Z.to_nat k) res /\ out = Ok res.

End Random.

(** [range(lo, hi)] *)
Definition range (lo hi : Z) : list Z := seqZ lo (hi - lo).

(** [l.sort()] on a list of integers. *)
Definition sort (l : list Z) : list Z := merge_sort Z.le l.

(** ** [get_numbers_ticket] (main.py, lines 26-46)

    The draw is not a function of the arguments: [get_numbers_ticket] is
    the relation between the arguments and the outcomes the call can
    have. *)

Definition get_numbers_ticket (min_val max_val quantity : Z)
    (out : result (list Z)) : Prop :=
  if (min_val <? 1) || (max_val >? 1000) || (quantity <? 1)
     || (quantity >? max_val - min_val + 1)
  then out = Ok []
  else
    exists drawn,
      Random.sample_outcome (range min_val (max_val + 1)) quantity drawn
      /\ out = (numbers <- drawn ;; Ok (sort numbers)).

(** ** [get_upcoming_birthdays] (main.py, lines 69-117) *)

(** [d[key]] *)
Definition getitem (d : gmap string string) (key : string) : result string :=
  match d !! key with
  | Some v => Ok v
  | None => Raise (KeyError key)
  end.

(** Lines 86-91, and again lines 94-99 with the next year: the birthday
    moved to year [y], and to the day before when that date does not
    exist; the ValueError of the second [replace] is not caught. *)
Definition birthday_in_year (birthday_date : date) (y : Z) : result date :=
  match replace birthday_date (Some y) None None with
  | Some d => Ok d
  | None =>
      match replace birthday_date (Some y) None (Some (day birthday_date - 1)) with
      | Some d => Ok d
      | None => Raise ValueError_lib
      end
  end.

(** Lines 86-99: the value of [next_birthday] at line 101. *)
Definition next_birthday (today birthday_date : date) : result date :=
  next_birthday <- birthday_in_year birthday_date (year today) ;;
  if lt next_birthday today then birthday_in_year birthday_date (year today + 1)
  else Ok next_birthday.

(** [d + timedelta(days=n)] *)
Definition plus_days (d : date) (n : Z) : result date :=
  match add_days d n with
  | Some d' => Ok d'
  | None => Raise OverflowError_lib
  end.

(** Lines 105-108. *)
Definition move_off_weekend (next_birthday : date) : result date :=
  if weekday next_birthday =? 5 then plus_days next_birthday 2
  else if weekday next_birthday =? 6 then plus_days next_birthday 1
  else Ok next_birthday.

(** One iteration of the loop, lines 81-115: [Ok None] when nothing is
    appended, [Ok (Some g)] when [g] is. *)
Definition loop_body (today : date) (user : gmap string string)
    : result (option (gmap string string)) :=
  match user !! "birthday" ≫= (fun b => Strptime.strptime b "%Y.%m.%d") with
  | None => Ok None                                   (* continue *)
  | Some birthday_date =>
      next_birthday <- next_birthday today birthday_date ;;
      let days_until_birthday := sub_days next_birthday today in
      if (0 <=? days_until_birthday) && (days_until_birthday <=? 7) then
        next_birthday <- move_off_weekend next_birthday ;;
        name <- getitem user "name" ;;
        Ok (Some {[ "name" := name;
                    "congratulation_date" :=
                      Strptime.strftime next_birthday "%Y.%m.%d" ]})
      else Ok None
  end.

Fixpoint loop (today : date) (users upcoming_birthdays : list (gmap string string))
    : result (list (gmap string string)) :=
  match users with
  | [] => Ok upcoming_birthdays
  | user :: users' =>
      appended <- loop_body today user ;;
      loop today users' (upcoming_birthdays ++ option_list appended)
  end.

Definition get_upcoming_birthdays (today : date) (users : list (gmap string string))
    : result (list (gmap string string)) :=
  loop today users [].

(** The greeting record for [name] on date [d]. *)
Definition greeting (name : string) (d : date) : gmap string string :=
  {[ "name" := name;
     "congratulation_date" := Strptime.strftime d "%Y.%m.%d" ]}.

(** The number of days lines 105-108 move a date forward. *)
Definition weekend_shift (d : date) : Z :=
  if weekday d =? 5 then 2 else if weekday d =? 6 then 1 else 0.

(** ** Dates as text

    The 'YYYY-MM-DD' writing of a date, and the wider set of writings
    that strptime takes for "%Y-%m-%d". *)

Definition digit (c : ascii) : Z := PyStr.code c - 48.

Definition digit_char (k : Z) : ascii := ascii_of_N (Z.to_N (48 + k)).

(** YYYY: the year with four digits. *)
Definition pad4 (n : Z) : string :=
  String (digit_char (n / 1000))
    (String (digit_char (n / 100 mod 10))
       (String (digit_char (n / 10 mod 10))
          (String (digit_char (n mod 10)) EmptyString))).

(** A month without and with its leading zero. *)
Definition month_texts (m : Z) : list string :=
  [Strptime.decimal m; Strptime.pad2 m].

(** A day without and with its leading zero, and with a space in the place
    of the zero. *)
Definition day_texts (d : Z) : list string :=
  if d <? 10 then
    [Strptime.decimal d; Strptime.pad2 d; String " " (Strptime.decimal d)]
  else [Strptime.decimal d].

Definition tail_text (mt dt : string) : string :=
  String "-" (mt ++ String "-" dt).

(** The writings of [d] as year, '-', month, '-', day. *)
Definition renderings (d : date) : list string :=
  mt ← month_texts (month d);
  dt ← day_texts (day d);
  [(pad4 (year d) ++ tail_text mt dt)%string].

(** The one writing of [d] in the format 'YYYY-MM-DD'. *)
Definition iso (d : date) : string :=
  (pad4 (year d)
   ++ tail_text (Strptime.pad2 (month d)) (Strptime.pad2 (day d)))%string.

(** ** Auxiliary definitions of the proofs *)

(** The place of a date in its year. *)
Definition day_of_year (d : date) : Z :=
  days_before_month (year d) (month d) + day d.

(** The pattern of "%Y-%m-%d" is [year_regex] followed by [tail_regex]. *)
Definition year_regex : Re.regex :=
  Re.Grp "Y" (Re.Cat Re.Dig (Re.Cat Re.Dig (Re.Cat Re.Dig Re.Dig))).

Definition tail_regex : Re.regex :=
  Strptime.sequence
    [Re.Chr "-"; default Re.Eps (Strptime.directive "m");
     Re.Chr "-"; default Re.Eps (Strptime.directive "d")].

(** What strptime makes of the text after the year. *)
Definition tail_parse (t : string) : option (Z * Z) :=
  found ← Re.match_ tail_regex t;
  let '(_, groups, rest) := found in
  if String.eqb rest EmptyString then
    m ← Strptime.field groups "m" 1;
    d ← Strptime.field groups "d" 1;
    Some (m, d)
  else None.

(** Every text after the year that writes a month from 1 to 12 and a day
    from 1 to 31, with the month and the day it writes. *)
Definition all_tails : list (string * Z * Z) :=
  m ← seqZ 1 12; d ← seqZ 1 31;
  mt ← month_texts m; dt ← day_texts d; [(tail_text mt dt, m, d)].

Definition entry_eqb (x y : string * Z * Z) : bool :=
  String.eqb x.1.1 y.1.1 && (x.1.2 =? y.1.2) && (x.2 =? y.2).

Definition entry_mem (e : string * Z * Z) : bool :=
  existsb (entry_eqb e) all_tails.

Definition tail_check (e : string * Z * Z) : bool :=
  match tail_parse e.1.1 with
  | Some (m, d) => (m =? e.1.2) && (d =? e.2)
  | None => false
  end.

(** [pad2] has two characters and tells the numbers 1 to 31 apart. *)
Definition pad2_check (n1 : Z) : bool :=
  (String.length (Strptime.pad2 n1) =? 2)%nat
  && forallb (fun n2 =>
                implb (String.eqb (Strptime.pad2 n1) (Strptime.pad2 n2))
                      (n1 =? n2))
             (seqZ 1 31).

(** The characters from [lo] to [hi]. *)
Definition ascii_range (lo hi : ascii) : list ascii :=
  (fun k => ascii_of_N (Z.to_N k))
    <$> seqZ (PyStr.code lo) (PyStr.code hi - PyStr.code lo + 1).

(** The condition of lines 36-41. *)
Definition invalid_ticket (min_val max_val quantity : Z) : Prop :=
  min_val < 1 \/ max_val > 1000 \/ quantity < 1
  \/ quantity > max_val - min_val + 1.

Definition tail_length_check (e : string * Z * Z) : bool :=
  (4 <=? String.length e.1.1)%nat && (String.length e.1.1 <=? 6)%nat.

(** Line 103 holds for [user]: the birthday parses and its next occurrence
    is 0 to 7 days from [today]. *)
Definition due (today : date) (user : gmap string string) : bool :=
  match user !! "birthday" ≫= (fun b => Strptime.strptime b "%Y.%m.%d") with
  | Some birthday_date =>
      match next_birthday today birthday_date with
      | Ok occurrence =>
          (0 <=? sub_days occurrence today) && (sub_days occurrence today <=? 7)
      | Raise _ => false
      end
  | None => false
  end.

(** The pattern of "%Y.%m.%d" is [year_regex] followed by [dot_tail_regex]. *)
Definition dot_tail_regex : Re.regex :=
  Strptime.sequence
    [Re.Chr "."; default Re.Eps (Strptime.directive "m");
     Re.Chr "."; default Re.Eps (Strptime.directive "d")].

Definition dot_tail_parse (t : string) : option (Z * Z) :=
  found ← Re.match_ dot_tail_regex t;
  let '(_, groups, rest) := found in
  if String.eqb rest EmptyString then
    m ← Strptime.field groups "m" 1;
    d ← Strptime.field groups "d" 1;
    Some (m, d)
  else None.

(** What strftime writes after the year for "%Y.%m.%d", for every month
    and day, with the month and the day. *)
Definition dot_tails : list (string * Z * Z) :=
  m ← seqZ 1 12; d ← seqZ 1 31;
  [(String "." (Strptime.pad2 m ++ String "." (Strptime.pad2 d)), m, d)].

Definition dot_tail_check (e : string * Z * Z) : bool :=
  match dot_tail_parse e.1.1 with
  | Some (m, d) => (m =? e.1.2) && (d =? e.2)
  | None => false
  end.

(** From year 1000 on the decimal year has the four digits of [pad4]. *)
Definition year_check (y : Z) : bool :=
  String.eqb (Strptime.decimal y) (pad4 y).

(** A bounded universal quantifier that computes. *)
Fixpoint all_from (P : Z -> bool) (n : nat) (i : Z) : bool :=
  match n with
  | O => true
  | S n' => P i && all_from P n' (i + 1)
  end.

(** The month and day [ord2ymd] finds for day [n] (from 0) of a year. *)
Definition month_day (leapyear : bool) (n : Z) : Z * Z :=
  let month := Z.shiftr (n + 50) 5 in
  let preceding :=
    index DAYS_BEFORE_MONTH month
    + (if (month >? 2) && leapyear then 1 else 0) in
  if preceding >? n then
    let month := month - 1 in
    let preceding :=
      preceding - (index DAYS_IN_MONTH month
                   + (if (month =? 2) && leapyear then 1 else 0)) in
    (month, n - preceding + 1)
  else (month, n - preceding + 1).

Definition month_day_check (leapyear : bool) (n : Z) : bool :=
  let '(m, d) := month_day leapyear n in
  (1 <=? m) && (m <=? 12) && (1 <=? d)
  && (d <=? (if (m =? 2) && leapyear then 29 else index DAYS_IN_MONTH m))
  && (index DAYS_BEFORE_MONTH m + (if (m >? 2) && leapyear then 1 else 0) + d
      =? n + 1).

(** * Properties *)

(** ** Calendar arithmetic *)

Ltac divlia := Z.to_euclidean_division_equations; lia.

(** Evaluate the table lookups and month tests of a goal about one month. *)
Ltac eval_month :=
  repeat match goal with
    | |- context [index ?t ?k] =>
        let v := eval vm_compute in (index t k) in change (index t k) with v
    | |- context [?k =? 2] =>
        let v := eval vm_compute in (k =? 2) in change (k =? 2) with v
    | |- context [?k >? 2] =>
        let v := eval vm_compute in (k >? 2) in change (k >? 2) with v
    end;
  cbn [andb]; cbv iota.

Section CalendarFacts.

Lemma is_leap_true y :
  is_leap y = true <-> y mod 4 = 0 /\ (y mod 100 <> 0 \/ y mod 400 = 0).
Proof.
  unfold is_leap.
  rewrite andb_true_iff, orb_true_iff, negb_true_iff, !Z.eqb_eq, Z.eqb_neq.
  tauto.
Qed.

Lemma is_leap_false y :
  is_leap y = false <-> y mod 4 <> 0 \/ (y mod 100 = 0 /\ y mod 400 <> 0).
Proof.
  unfold is_leap.
  rewrite andb_false_iff, orb_false_iff, negb_false_iff, !Z.eqb_eq, !Z.eqb_neq.
  tauto.
Qed.

Lemma all_from_spec P n i :
  all_from P n i = true -> forall j, i <= j < i + Z.of_nat n -> P j = true.
Proof.
  revert i. induction n as [|n IH]; intros i H j Hj; [lia|].
  simpl in H. apply andb_prop in H as [H1 H2].
  destruct (Z.eq_dec j i) as [->|]; [done|].
  apply (IH (i + 1)); [done|lia].
Qed.

Lemma month_day_ok leapyear n :
  0 <= n < 365 -> month_day_check leapyear n = true.
Proof.
  intros Hn.
  assert (H : forall b, all_from (month_day_check b) 365 0 = true)
    by (intros []; vm_compute; reflexivity).
  apply (all_from_spec _ _ _ (H leapyear)). lia.
Qed.

(** [fromordinal] inverts [toordinal] on the ordinals of the calendar,
    and yields a date that passes the constructor's check. *)
Lemma ord2ymd_ok n :
  1 <= n <= MAXORDINAL ->
  valid_date (ord2ymd n) = true /\ toordinal (ord2ymd n) = n.
Proof.
  unfold MAXORDINAL. intros Hn.
  unfold ord2ymd, DI400Y, DI100Y, DI4Y.
  set (n0 := n - 1).
  set (n400 := n0 / 146097). set (r1 := n0 mod 146097).
  set (n100 := r1 / 36524). set (r2 := r1 mod 36524).
  set (n4 := r2 / 1461). set (r3 := r2 mod 1461).
  set (n1 := r3 / 365). set (r4 := r3 mod 365).
  cbv zeta.
  set (y := n400 * 400 + 1 + n100 * 100 + n4 * 4 + n1).
  assert (Hb : 0 <= n400 <= 24 /\ 0 <= n100 <= 4 /\ 0 <= n4 <= 24
               /\ 0 <= n1 <= 4 /\ 0 <= r4 < 365
               /\ n0 = 146097 * n400 + 36524 * n100 + 1461 * n4 + 365 * n1 + r4
               /\ (n100 = 4 -> n4 = 0 /\ n1 = 0 /\ r4 = 0)
               /\ (n1 = 4 -> r4 = 0 /\ n4 <= 23))
    by (subst n400 r1 n100 r2 n4 r3 n1 r4 n0; divlia).
  assert (E0 : n0 = n - 1) by reflexivity.
  clearbody n0 n400 r1 n100 r2 n4 r3 n1 r4.
  destruct Hb as (H400 & H100 & H4 & H1 & Hr4 & Hsum & Hc & Hq).
  unfold valid_date, toordinal, ymd2ord, days_in_month, days_before_month,
    days_before_year, MINYEAR, MAXYEAR.
  destruct ((n1 =? 4) || (n100 =? 4)) eqn:Hsp; cbn [year month day].
  - (* the last day of a leap year *)
    apply orb_true_iff in Hsp. rewrite !Z.eqb_eq in Hsp.
    assert (Hleap : is_leap (y - 1) = true)
      by (apply is_leap_true; subst y; divlia).
    rewrite Hleap. change (index DAYS_IN_MONTH 12) with 31.
    change (index DAYS_BEFORE_MONTH 12) with 334.
    change (12 =? 2) with false. change (12 >? 2) with true. cbn [andb].
    split.
    + repeat (apply andb_true_intro; split); apply Z.leb_le; subst y; lia.
    + subst y. divlia.
  - apply orb_false_iff in Hsp. rewrite !Z.eqb_neq in Hsp.
    set (b := (n1 =? 3) && (negb (n4 =? 24) || (n100 =? 3))).
    assert (Hleap : is_leap y = b).
    { subst b. destruct (is_leap y) eqn:E; symmetry.
      - apply is_leap_true in E.
        rewrite andb_true_iff, orb_true_iff, negb_true_iff, !Z.eqb_eq, Z.eqb_neq.
        subst y. divlia.
      - apply is_leap_false in E.
        rewrite andb_false_iff, orb_false_iff, negb_false_iff,
          !Z.eqb_eq, !Z.eqb_neq.
        subst y. divlia. }
    pose proof (month_day_ok b r4 Hr4) as Hmd.
    unfold month_day_check, month_day in Hmd. cbv zeta in Hmd.
    destruct (_ >? r4); cbn [year month day]; rewrite Hleap;
      rewrite !andb_true_iff, !Z.leb_le, Z.eqb_eq in Hmd;
      (split; [repeat (apply andb_true_intro; split); apply Z.leb_le;
               try (subst y; lia)
              | subst y; divlia]).
Qed.

Lemma valid_date_iff d :
  valid_date d = true <->
  1 <= year d <= 9999 /\ 1 <= month d <= 12
  /\ 1 <= day d <= days_in_month (year d) (month d).
Proof.
  unfold valid_date, MINYEAR, MAXYEAR.
  rewrite !andb_true_iff, !Z.leb_le. tauto.
Qed.

Lemma month_cases m :
  1 <= m <= 12 ->
  m = 1 \/ m = 2 \/ m = 3 \/ m = 4 \/ m = 5 \/ m = 6
  \/ m = 7 \/ m = 8 \/ m = 9 \/ m = 10 \/ m = 11 \/ m = 12.
Proof. lia. Qed.

(** Every date has an ordinal between 1 and [MAXORDINAL]. *)
Lemma toordinal_bounds d :
  valid_date d = true -> 1 <= toordinal d <= MAXORDINAL.
Proof.
  rewrite valid_date_iff. destruct d as [y m dd]; cbn [year month day].
  intros (Hy & Hm & Hd). revert Hd.
  unfold toordinal, ymd2ord, days_before_month, days_before_year,
    days_in_month, MAXORDINAL; cbn [year month day]; cbv zeta.
  destruct (is_leap y) eqn:E;
    [apply is_leap_true in E | apply is_leap_false in E];
    destruct (month_cases m Hm) as
      [->|[->|[->|[->|[->|[->|[->|[->|[->|[->|[->| ->]]]]]]]]]]];
    eval_month; intros Hd; divlia.
Qed.

Lemma mkdate_Some y m d x :
  mkdate y m d = Some x -> x = Date y m d /\ valid_date x = true.
Proof.
  unfold mkdate. destruct (valid_date (Date y m d)) eqn:E; [|done].
  by intros [= <-].
Qed.

Lemma days_before_year_succ y :
  days_before_year (y + 1) = days_before_year y + 365 + (if is_leap y then 1 else 0).
Proof.
  unfold days_before_year. cbv zeta.
  destruct (is_leap y) eqn:E;
    [apply is_leap_true in E | apply is_leap_false in E]; divlia.
Qed.

Lemma days_before_year_mono y1 y2 :
  y1 <= y2 -> days_before_year y1 <= days_before_year y2.
Proof. unfold days_before_year. cbv zeta. intros H. divlia. Qed.

Lemma day_of_year_bounds d :
  valid_date d = true ->
  1 <= day_of_year d <= 365 + (if is_leap (year d) then 1 else 0).
Proof.
  rewrite valid_date_iff. destruct d as [y m dd]; cbn [year month day].
  intros (Hy & Hm & Hd). revert Hd.
  unfold day_of_year, days_before_month, days_in_month; cbn [year month day].
  destruct (is_leap y);
    destruct (month_cases m Hm) as
      [->|[->|[->|[->|[->|[->|[->|[->|[->|[->|[->| ->]]]]]]]]]]];
    eval_month; lia.
Qed.

Lemma day_of_year_lt y m1 d1 m2 d2 :
  valid_date (Date y m1 d1) = true -> valid_date (Date y m2 d2) = true ->
  m1 < m2 -> day_of_year (Date y m1 d1) < day_of_year (Date y m2 d2).
Proof.
  rewrite !valid_date_iff; cbn [year month day].
  intros (Hy & Hm1 & Hd1) (_ & Hm2 & Hd2) Hlt. revert Hd1 Hd2.
  unfold day_of_year, days_before_month, days_in_month; cbn [year month day].
  destruct (is_leap y);
    destruct (month_cases m1 Hm1) as
      [->|[->|[->|[->|[->|[->|[->|[->|[->|[->|[->| ->]]]]]]]]]]];
    destruct (month_cases m2 Hm2) as
      [->|[->|[->|[->|[->|[->|[->|[->|[->|[->|[->| ->]]]]]]]]]]];
    try lia; eval_month; lia.
Qed.

Lemma toordinal_lt_1 d1 d2 :
  valid_date d1 = true -> valid_date d2 = true ->
  lt d1 d2 = true -> toordinal d1 < toordinal d2.
Proof.
  intros Hv1 Hv2. unfold lt.
  rewrite orb_true_iff, andb_true_iff, orb_true_iff, andb_true_iff,
    !Z.ltb_lt, !Z.eqb_eq.
  pose proof (day_of_year_bounds d1 Hv1) as Hb1.
  pose proof (day_of_year_bounds d2 Hv2) as Hb2.
  assert (E1 : toordinal d1 = days_before_year (year d1) + day_of_year d1)
    by (unfold toordinal, ymd2ord, day_of_year; lia).
  assert (E2 : toordinal d2 = days_before_year (year d2) + day_of_year d2)
    by (unfold toordinal, ymd2ord, day_of_year; lia).
  intros [Hy|[Hy [Hm|[Hm Hd]]]].
  - pose proof (days_before_year_succ (year d1)).
    pose proof (days_before_year_mono (year d1 + 1) (year d2)). lia.
  - destruct d1 as [y1 m1 dd1], d2 as [y2 m2 dd2]. cbn [year month day] in *.
    subst y2. pose proof (day_of_year_lt y1 m1 dd1 m2 dd2 Hv1 Hv2 Hm). lia.
  - destruct d1 as [y1 m1 dd1], d2 as [y2 m2 dd2]. cbn [year month day] in *.
    subst y2 m2. unfold day_of_year in *. cbn [year month day] in *. lia.
Qed.

Lemma lt_trichotomy d1 d2 : lt d1 d2 = true \/ d1 = d2 \/ lt d2 d1 = true.
Proof.
  destruct d1 as [y1 m1 dd1], d2 as [y2 m2 dd2]. unfold lt. cbn [year month day].
  rewrite !orb_true_iff, !andb_true_iff, !orb_true_iff, !andb_true_iff,
    !Z.ltb_lt, !Z.eqb_eq.
  destruct (Z.lt_trichotomy y1 y2) as [?|[->|?]]; [tauto| |tauto].
  destruct (Z.lt_trichotomy m1 m2) as [?|[->|?]]; [tauto| |tauto].
  destruct (Z.lt_trichotomy dd1 dd2) as [?|[->|?]]; tauto.
Qed.

(** Dates are ordered as their ordinals are. *)
Lemma toordinal_lt d1 d2 :
  valid_date d1 = true -> valid_date d2 = true ->
  lt d1 d2 = true <-> toordinal d1 < toordinal d2.
Proof.
  intros Hv1 Hv2. split; [by apply toordinal_lt_1|].
  intros H. destruct (lt_trichotomy d1 d2) as [?|[->|H']]; [done|lia|].
  apply toordinal_lt_1 in H'; [lia|done..].
Qed.

Lemma toordinal_inj d1 d2 :
  valid_date d1 = true -> valid_date d2 = true ->
  toordinal d1 = toordinal d2 -> d1 = d2.
Proof.
  intros Hv1 Hv2 H.
  destruct (lt_trichotomy d1 d2) as [H'|[?|H']]; [|done|];
    apply toordinal_lt_1 in H'; (done || lia).
Qed.

End CalendarFacts.

(** ** Strings *)

Section StringFacts.
Import PyStr PhoneSpec.

Local Abbreviation chars := list_ascii_of_string.
Local Abbreviation text := string_of_list_ascii.

Lemma chars_nil s : chars s = [] -> s = EmptyString.
Proof. by destruct s. Qed.

Lemma lstrip_chars s : chars (lstrip s) = drop_while isspace (chars s).
Proof.
  induction s as [|c s IH]; [done|]. cbn. by destruct (isspace c).
Qed.

Lemma drop_while_snoc {A} (P : A -> bool) l x :
  drop_while P (l ++ [x]) =
  match drop_while P l with
  | [] => if P x then [] else [x]
  | r => r ++ [x]
  end.
Proof.
  induction l as [|y l IH]; [done|]. cbn. by destruct (P y).
Qed.

Lemma rstrip_chars s :
  chars (rstrip s) = rev (drop_while isspace (rev (chars s))).
Proof.
  induction s as [|c s IH]; [done|].
  cbn [chars rstrip rev]. rewrite drop_while_snoc.
  destruct (drop_while isspace (rev (chars s))) as [|x r].
  - apply chars_nil in IH. rewrite IH. by destruct (isspace c).
  - rewrite rev_unit, <- IH.
    destruct (rstrip s); [|done].
    cbn in IH. apply (f_equal length) in IH.
    rewrite length_app in IH. cbn in IH. lia.
Qed.

Lemma strip_chars s : chars (strip s) = trim (chars s).
Proof. unfold strip, trim. by rewrite rstrip_chars, lstrip_chars. Qed.

Lemma re_sub_nondigit s :
  re_sub nondigit EmptyString s = text (digits_of (chars s)).
Proof.
  induction s as [|c s IH]; [done|].
  cbn [re_sub chars]. unfold digits_of in *. cbn [List.filter].
  unfold nondigit at 1.
  destruct (isdigit c); cbn [negb text]; rewrite IH; reflexivity.
Qed.

(** Reading the character patterns of [PhoneSpec.normalize] as tests. *)
Lemma match_plus {X} (c : ascii) (l : list ascii) (A : list ascii -> X) (B : X) :
  match c :: l with
  | "+"%char :: r => A r
  | _ => B
  end = if Ascii.eqb "+" c then A l else B.
Proof. destruct c as [[] [] [] [] [] [] [] []]; reflexivity. Qed.

Lemma match_380 {X} (d : string) (A B : X) :
  match chars d with
  | "3"%char :: "8"%char :: "0"%char :: _ => A
  | _ => B
  end = if startswith d "380" then A else B.
Proof.
  destruct d as [|c1 d]; [done|]. cbn [chars startswith].
  destruct (Ascii.eqb_spec "3" c1) as [<-|Hc1];
    [|destruct (chars d) as [|? [|? ?]];
      destruct c1 as [[] [] [] [] [] [] [] []]; (reflexivity || congruence)].
  destruct d as [|c2 d]; [done|]. cbn [chars startswith].
  destruct (Ascii.eqb_spec "8" c2) as [<-|Hc2];
    [|destruct (chars d) as [|? ?];
      destruct c2 as [[] [] [] [] [] [] [] []]; (reflexivity || congruence)].
  destruct d as [|c3 d]; [done|]. cbn [chars startswith].
  destruct (Ascii.eqb_spec "0" c3) as [<-|Hc3]; [done|].
  destruct c3 as [[] [] [] [] [] [] [] []]; (reflexivity || congruence).
Qed.

Lemma chars_text l : chars (text l) = l.
Proof. apply list_ascii_of_string_of_list_ascii. Qed.

Lemma normalize_phone_steps s : normalize_phone s = PhoneSpec.normalize s.
Proof.
  unfold normalize_phone, PhoneSpec.normalize.
  rewrite <- strip_chars.
  destruct (strip s) as [|c t] eqn:Hs.
  - reflexivity.
  - cbn [chars]. rewrite match_plus.
    change (startswith (String c t) "+")
      with (if Ascii.eqb "+" c then true else false).
    change (slice_from 1 (String c t)) with t.
    destruct (Ascii.eqb "+" c).
    + by rewrite re_sub_nondigit.
    + rewrite re_sub_nondigit.
      set (ds := digits_of (chars (String c t))).
      transitivity (if startswith (text ds) "380" then text ("+"%char :: ds)
                    else text ("+"%char :: "3"%char :: "8"%char :: ds)).
      * destruct (startswith _ _); reflexivity.
      * rewrite <- match_380, chars_text. reflexivity.
Qed.

End StringFacts.

(** ** Sampling and sorting *)

Section SampleFacts.
Import Random.

Lemma sample_length {A} (pop : list A) k res :
  sample pop k res -> length res = k.
Proof. induction 1; cbn; congruence. Qed.

(** A sample is, up to order, a part of the population. *)
Lemma sample_Permutation {A} (pop : list A) k res :
  sample pop k res -> exists rest, pop ≡ₚ res ++ rest.
Proof.
  induction 1 as [pop|l1 x l2 k res _ [rest IH]].
  - by exists pop.
  - exists rest. rewrite <- Permutation_middle. cbn. by rewrite IH.
Qed.

Lemma sample_NoDup {A} (pop : list A) k res :
  sample pop k res -> NoDup pop -> NoDup res.
Proof.
  intros [rest Hp]%sample_Permutation Hnd.
  rewrite Hp in Hnd. by apply NoDup_app in Hnd as [? _].
Qed.

Lemma sample_elem_of {A} (pop : list A) k res x :
  sample pop k res -> x ∈ res -> x ∈ pop.
Proof.
  intros [rest Hp]%sample_Permutation Hx.
  rewrite Hp. apply elem_of_app. by left.
Qed.

(** Up to the size of the population, a sample exists. *)
Lemma sample_exists {A} (pop : list A) k :
  (k <= length pop)%nat -> exists res, sample pop k res.
Proof.
  revert pop. induction k as [|k IH]; intros pop Hk.
  - exists []. constructor.
  - destruct pop as [|x pop]; [cbn in Hk; lia|].
    destruct (IH pop) as [res Hres]; [cbn in Hk; lia|].
    exists (x :: res). by apply (sample_cons [] x pop).
Qed.

Lemma sort_Permutation l : sort l ≡ₚ l.
Proof. apply merge_sort_Permutation. Qed.

Lemma sort_ascending l : NoDup l -> StronglySorted Z.lt (sort l).
Proof.
  intros Hnd. rewrite <- sort_Permutation in Hnd.
  pose proof (StronglySorted_merge_sort Z.le l) as Hs. fold (sort l) in Hs.
  induction Hs as [|x l' Hs IH Hx]; [constructor|].
  apply NoDup_cons in Hnd as [Hnot Hnd].
  constructor; [by apply IH|].
  rewrite Forall_forall in Hx |- *. intros z Hz.
  specialize (Hx z Hz). assert (z <> x) by (intros ->; by apply Hnot).
  lia.
Qed.

Lemma elem_of_range lo hi x : x ∈ range lo hi <-> lo <= x < hi.
Proof. unfold range. rewrite elem_of_seqZ. lia. Qed.

Lemma length_range lo hi : length (range lo hi) = Z.to_nat (hi - lo).
Proof. apply length_seqZ. Qed.

End SampleFacts.

(** ** The phone normaliser *)

(** The examples of the specification, and one of the script's. *)
Example normalize_phone_ex1 :
  normalize_phone "+380 44 123 4567" = "+380441234567".
Proof. reflexivity. Qed.

Example normalize_phone_ex2 : normalize_phone "0503451234" = "+380503451234".
Proof. reflexivity. Qed.

Example normalize_phone_ex3 : normalize_phone "380501234567" = "+380501234567".
Proof. reflexivity. Qed.

Example normalize_phone_ex4 :
  normalize_phone (String "009" "  +38(050)123-32-34" ++ String "010" "")
  = "+380501233234".
Proof. reflexivity. Qed.

(** C3: for every input string, [normalize_phone] computes the result of
    the specification's steps: trim the whitespace at both ends; if the
    trimmed string starts with '+', '+' followed by the digits of the
    remainder; otherwise the digits of the whole string, after '+' when
    they start with "380" and after "+38" when they do not. *)
Theorem normalize_phone_follows_the_steps (phone_number : string) :
  normalize_phone phone_number = PhoneSpec.normalize phone_number.
Proof. apply normalize_phone_steps. Qed.

Lemma forallb_digits_of l : forallb PyStr.isdigit (PhoneSpec.digits_of l) = true.
Proof.
  apply forallb_forall. intros c Hc.
  by apply List.filter_In in Hc as [_ ?].
Qed.

(** C9: for every input string, [normalize_phone] returns (it is a total
    function: no operation in it can raise on a string) and its result is
    in canonical phone format, a '+' followed by digits only. *)
Theorem normalize_phone_canonical (phone_number : string) :
  canonical_phone (normalize_phone phone_number) = true.
Proof.
  assert (Hplus : forall t,
             canonical_phone (String "+" t)
             = forallb PyStr.isdigit (list_ascii_of_string t)) by reflexivity.
  unfold normalize_phone. rewrite !re_sub_nondigit.
  destruct (PyStr.startswith (PyStr.strip phone_number) "+").
  - change ("+" ++ ?t)%string with (String "+" t).
    by rewrite Hplus, chars_text, forallb_digits_of.
  - destruct (PyStr.startswith _ "380").
    + change ("+" ++ ?t)%string with (String "+" t).
      by rewrite Hplus, chars_text, forallb_digits_of.
    + change ("+38" ++ ?t)%string with (String "+" (String "3" (String "8" t))).
      rewrite Hplus. cbn [list_ascii_of_string forallb].
      by rewrite chars_text, forallb_digits_of.
Qed.

(** ** The lottery draw *)

(** C7: when [min_val < 1], or [max_val > 1000], or [quantity < 1], or
    [quantity] exceeds the number of integers in the range, the call has
    exactly one outcome: it returns the empty list, and raises nothing. *)
Theorem get_numbers_ticket_invalid (min_val max_val quantity : Z)
    (out : result (list Z)) :
  min_val < 1 \/ max_val > 1000 \/ quantity < 1
  \/ quantity > max_val - min_val + 1 ->
  get_numbers_ticket min_val max_val quantity out <-> out = Ok [].
Proof.
  intros H. unfold get_numbers_ticket.
  destruct (_ || _) eqn:E; [done|].
  rewrite !orb_false_iff, !Z.ltb_ge, !Z.gtb_ltb, !Z.ltb_ge in E. lia.
Qed.

Lemma get_numbers_ticket_invalid_witness :
  get_numbers_ticket 1 5 10 (Ok []) <-> Ok [] = Ok ([] : list Z).
Proof. apply (get_numbers_ticket_invalid 1 5 10). lia. Defined.

(** C6: when [min_val >= 1], [max_val <= 1000] and
    [1 <= quantity <= max_val - min_val + 1], the call has an outcome, and
    every outcome it can have is a returned list of exactly [quantity]
    pairwise distinct integers, each within [min_val, max_val], in
    ascending order. *)
Theorem get_numbers_ticket_valid (min_val max_val quantity : Z) :
  min_val >= 1 -> max_val <= 1000 -> quantity >= 1 ->
  quantity <= max_val - min_val + 1 ->
  (exists out, get_numbers_ticket min_val max_val quantity out)
  /\ forall out, get_numbers_ticket min_val max_val quantity out ->
       exists numbers,
         out = Ok numbers
         /\ Z.of_nat (length numbers) = quantity
         /\ NoDup numbers
         /\ Forall (fun x => min_val <= x <= max_val) numbers
         /\ StronglySorted Z.lt numbers.
Proof.
  intros Hmin Hmax Hq1 Hq2. unfold get_numbers_ticket.
  destruct (_ || _) eqn:E.
  { rewrite !orb_true_iff, !Z.gtb_ltb, !Z.ltb_lt in E. lia. }
  clear E. unfold Random.sample_outcome. rewrite length_range.
  destruct (_ || _) eqn:E.
  { rewrite orb_true_iff, !Z.ltb_lt in E. lia. }
  clear E. split.
  - destruct (sample_exists (range min_val (max_val + 1)) (Z.to_nat quantity))
      as [res Hres]; [rewrite length_range; lia|].
    exists (Ok (sort res)), (Ok res). eauto.
  - intros out (drawn & (res & Hres & ->) & ->). cbn [bind].
    exists (sort res). split; [done|].
    assert (Hnd : NoDup res)
      by (eapply sample_NoDup; [done|apply NoDup_seqZ]).
    repeat split.
    + rewrite (Permutation_length (sort_Permutation res)),
        (sample_length _ _ _ Hres). lia.
    + by rewrite sort_Permutation.
    + apply Forall_forall. intros x Hx.
      rewrite sort_Permutation in Hx.
      apply (sample_elem_of _ _ _ _ Hres), elem_of_range in Hx. lia.
    + by apply sort_ascending.
Qed.

Lemma get_numbers_ticket_valid_witness :
  (exists out, get_numbers_ticket 1 49 6 out)
  /\ forall out, get_numbers_ticket 1 49 6 out ->
       exists numbers,
         out = Ok numbers
         /\ Z.of_nat (length numbers) = 6
         /\ NoDup numbers
         /\ Forall (fun x => 1 <= x <= 49) numbers
         /\ StronglySorted Z.lt numbers.
Proof. apply (get_numbers_ticket_valid 1 49 6); lia. Defined.

(** ** What strptime accepts for "%Y-%m-%d" *)

Section StrptimeFacts.
Import Re Strptime.

Lemma isdigit_not_space c : PyStr.isdigit c = true -> PyStr.isspace c = false.
Proof.
  unfold PyStr.isdigit, PyStr.isspace. generalize (PyStr.code c). intros n.
  rewrite andb_true_iff, !Z.leb_le. intros [? ?].
  rewrite !orb_false_iff, !andb_false_iff, !Z.leb_gt, !Z.eqb_neq. lia.
Qed.

Lemma int_4_digits a b c d :
  PyStr.isdigit a = true -> PyStr.isdigit b = true ->
  PyStr.isdigit c = true -> PyStr.isdigit d = true ->
  int (String a (String b (String c (String d EmptyString))))
  = Some (1000 * digit a + 100 * digit b + 10 * digit c + digit d).
Proof.
  intros Ha Hb Hc Hd. unfold int, PyStr.strip.
  cbn [PyStr.lstrip]. rewrite (isdigit_not_space a Ha).
  cbn [PyStr.rstrip]. rewrite (isdigit_not_space d Hd).
  cbn [digits_value]. rewrite Ha, Hb, Hc, Hd. unfold digit. f_equal. lia.
Qed.

Lemma run_year_then (T : regex) a b c d t :
  run (Cat year_regex T) (String a (String b (String c (String d t))))
  = if PyStr.isdigit a && PyStr.isdigit b && PyStr.isdigit c && PyStr.isdigit d
    then
      let y := String a (String b (String c (String d EmptyString))) in
      map (fun '(t2, g2, s2) => ((y ++ t2)%string, ("Y"%char, y) :: g2, s2)) (run T t)
    else [].
Proof.
  unfold year_regex. cbn [run one_char].
  destruct (PyStr.isdigit a); [|reflexivity].
  cbn [flat_map map app one_char].
  destruct (PyStr.isdigit b); [|reflexivity].
  cbn [flat_map map app one_char].
  destruct (PyStr.isdigit c); [|reflexivity].
  cbn [flat_map map app one_char].
  destruct (PyStr.isdigit d); [|reflexivity].
  cbn [flat_map map app one_char andb]. rewrite app_nil_r.
  induction (run T t) as [|[[t2 g2] s2] l IH]; [reflexivity|].
  cbn [map]. by rewrite IH.
Qed.

Lemma field_cons n t g name dflt :
  field ((n, t) :: g) name dflt
  = if Ascii.eqb n name then int t else field g name dflt.
Proof. unfold field. cbn [group]. by destruct (Ascii.eqb n name). Qed.

Lemma strptime_tail a b c d t :
  strptime (String a (String b (String c (String d t)))) "%Y-%m-%d"
  = if PyStr.isdigit a && PyStr.isdigit b && PyStr.isdigit c && PyStr.isdigit d
    then '(m, dd) ← tail_parse t;
         mkdate (1000 * digit a + 100 * digit b + 10 * digit c + digit d) m dd
    else None.
Proof.
  unfold strptime.
  change (pattern "%Y-%m-%d")
    with (Some [year_regex; Chr "-"; default Eps (directive "m");
                Chr "-"; default Eps (directive "d")]).
  cbn [mbind option_bind]. unfold match_.
  change (sequence _) with (Cat year_regex tail_regex).
  rewrite run_year_then.
  destruct (_ && _) eqn:E; [|reflexivity].
  rewrite !andb_true_iff in E. destruct E as [[[Ha Hb] Hc] Hd].
  cbv zeta. unfold tail_parse, match_.
  destruct (run tail_regex t) as [|[[t2 g2] s2] l]; [reflexivity|].
  cbn [map head mbind option_bind].
  destruct (String.eqb s2 ""); [|reflexivity].
  rewrite !field_cons.
  change (Ascii.eqb "Y" "Y") with true. change (Ascii.eqb "Y" "m") with false.
  change (Ascii.eqb "Y" "d") with false. cbv iota.
  rewrite int_4_digits by done. cbn [mbind option_bind].
  destruct (field g2 "m" 1); [|reflexivity].
  cbn [mbind option_bind].
  destruct (field g2 "d" 1); reflexivity.
Qed.

Lemma strptime_short s :
  (String.length s < 4)%nat -> strptime s "%Y-%m-%d" = None.
Proof.
  intros H. unfold strptime.
  change (pattern "%Y-%m-%d")
    with (Some [year_regex; Chr "-"; default Eps (directive "m");
                Chr "-"; default Eps (directive "d")]).
  cbn [mbind option_bind]. unfold match_.
  change (sequence _) with (Cat year_regex tail_regex).
  generalize tail_regex. intros T. unfold year_regex.
  destruct s as [|a [|b [|c [|d s]]]]; cbn in H; try lia;
    cbn [run one_char];
    repeat (destruct (PyStr.isdigit _); cbn [flat_map map app one_char]);
    reflexivity.
Qed.

Lemma tail_parse_table t m d :
  In (t, m, d) all_tails -> tail_parse t = Some (m, d).
Proof.
  assert (H : forallb tail_check all_tails = true) by (vm_compute; reflexivity).
  rewrite forallb_forall in H. intros Hin. specialize (H _ Hin).
  unfold tail_check in H. cbn [fst snd] in H.
  destruct (tail_parse t) as [[m' d']|]; [|done].
  apply andb_true_iff in H as [->%Z.eqb_eq ->%Z.eqb_eq]. done.
Qed.

Lemma In_one_char P s x :
  In x (one_char P s) ->
  exists c s', s = String c s' /\ P c = true /\ x = (String c EmptyString, [], s').
Proof.
  destruct s as [|c s']; [done|]. cbn [one_char].
  destruct (P c) eqn:E; [|done]. intros [<-|[]]. eauto.
Qed.

Lemma In_run_Cat r1 r2 s x :
  In x (run (Cat r1 r2) s) ->
  exists t1 g1 s1 t2 g2 s2,
    In (t1, g1, s1) (run r1 s) /\ In (t2, g2, s2) (run r2 s1)
    /\ x = ((t1 ++ t2)%string, g1 ++ g2, s2).
Proof.
  cbn [run]. rewrite in_flat_map. intros ([[t1 g1] s1] & H1 & H2).
  apply in_map_iff in H2 as ([[t2 g2] s2] & <- & H2).
  by exists t1, g1, s1, t2, g2, s2.
Qed.

Lemma In_run_Alt r1 r2 s x :
  In x (run (Alt r1 r2) s) -> In x (run r1 s) \/ In x (run r2 s).
Proof. cbn [run]. apply in_app_or. Qed.

Lemma In_run_Grp name r s x :
  In x (run (Grp name r) s) ->
  exists t g s', In (t, g, s') (run r s) /\ x = (t, (name, t) :: g, s').
Proof.
  cbn [run]. intros ([[t g] s'] & <- & H)%in_map_iff. by exists t, g, s'.
Qed.

Lemma In_ascii_range lo hi c :
  (PyStr.code lo <=? PyStr.code c) && (PyStr.code c <=? PyStr.code hi) = true ->
  In c (ascii_range lo hi).
Proof.
  rewrite andb_true_iff, !Z.leb_le. intros H.
  apply list_elem_of_In, list_elem_of_fmap. exists (PyStr.code c). split.
  - unfold PyStr.code. by rewrite N2Z.id, ascii_N_embedding.
  - apply elem_of_seqZ. lia.
Qed.

Lemma head_In {A} (l : list A) x : head l = Some x -> In x l.
Proof. destruct l; [done|]. intros [= ->]. by left. Qed.

Lemma entry_mem_In e : entry_mem e = true -> In e all_tails.
Proof.
  unfold entry_mem. rewrite existsb_exists. intros ([[t m] d] & Hin & H).
  unfold entry_eqb in H. destruct e as [[t' m'] d']. cbn [fst snd] in H.
  rewrite !andb_true_iff, String.eqb_eq, !Z.eqb_eq in H.
  by destruct H as [[-> ->] ->].
Qed.

Ltac invert_run :=
  repeat match goal with
    | H : In _ (run (Cat _ _) _) |- _ =>
        apply In_run_Cat in H as (? & ? & ? & ? & ? & ? & ? & ? & ?)
    | H : In _ (run (Alt _ _) _) |- _ => apply In_run_Alt in H as [H|H]
    | H : In _ (run (Grp _ _) _) |- _ =>
        apply In_run_Grp in H as (? & ? & ? & ? & ?)
    | H : In _ (run (Chr _) _) |- _ =>
        apply In_one_char in H as (? & ? & ? & ?%Ascii.eqb_eq & ?)
    | H : In _ (run (Rng _ _) _) |- _ =>
        apply In_one_char in H as (? & ? & ? & ?%In_ascii_range & ?)
    | H : In _ (run Dig _) |- _ =>
        apply In_one_char in H as (? & ? & ? & ?%(In_ascii_range "0" "9") & ?)
    | H : In _ (run Eps _) |- _ => destruct H as [H|[]]
    end.

Lemma tail_parse_inv t m d :
  tail_parse t = Some (m, d) -> In (t, m, d) all_tails.
Proof.
  unfold tail_parse, match_.
  destruct (head (run tail_regex t)) as [[[tx g] rest]|] eqn:E; [|done].
  cbn [mbind option_bind]. apply head_In in E.
  destruct (String.eqb_spec rest ""); [|done]. subst rest.
  intros Hf.
  let r := eval vm_compute in tail_regex in change tail_regex with r in E.
  invert_run; simplify_eq;
    repeat match goal with
      | H : In _ (ascii_range _ _) |- _ =>
          vm_compute in H; repeat (destruct H as [<-|H]); [..|destruct H]
      end.
  all: vm_compute in Hf; injection Hf as <- <-;
    apply entry_mem_In; vm_compute; reflexivity.
Qed.

Lemma digit_bounds c : PyStr.isdigit c = true -> 0 <= digit c <= 9.
Proof.
  unfold PyStr.isdigit, digit. rewrite andb_true_iff, !Z.leb_le. lia.
Qed.

Lemma digit_char_digit c : PyStr.isdigit c = true -> digit_char (digit c) = c.
Proof.
  intros H%digit_bounds. unfold digit_char, digit in *.
  replace (48 + (PyStr.code c - 48)) with (PyStr.code c) by lia.
  unfold PyStr.code. by rewrite N2Z.id, ascii_N_embedding.
Qed.

Lemma digit_digit_char k :
  0 <= k <= 9 ->
  PyStr.isdigit (digit_char k) = true /\ digit (digit_char k) = k.
Proof.
  intros Hk. unfold PyStr.isdigit, digit, digit_char, PyStr.code.
  rewrite N_ascii_embedding by lia. rewrite Z2N.id by lia.
  split; [|lia]. apply andb_true_iff. rewrite !Z.leb_le. lia.
Qed.

Lemma pad4_of_digits a b c d :
  PyStr.isdigit a = true -> PyStr.isdigit b = true ->
  PyStr.isdigit c = true -> PyStr.isdigit d = true ->
  pad4 (1000 * digit a + 100 * digit b + 10 * digit c + digit d)
  = String a (String b (String c (String d EmptyString))).
Proof.
  intros Ha Hb Hc Hd.
  pose proof (digit_bounds a Ha). pose proof (digit_bounds b Hb).
  pose proof (digit_bounds c Hc). pose proof (digit_bounds d Hd).
  set (n := 1000 * digit a + 100 * digit b + 10 * digit c + digit d).
  assert (Ea : n / 1000 = digit a) by (subst n; divlia).
  assert (Eb : n / 100 mod 10 = digit b) by (subst n; divlia).
  assert (Ec : n / 10 mod 10 = digit c) by (subst n; divlia).
  assert (Ed : n mod 10 = digit d) by (subst n; divlia).
  unfold pad4. rewrite Ea, Eb, Ec, Ed.
  by rewrite !digit_char_digit.
Qed.

Lemma pad4_digits y :
  0 <= y <= 9999 ->
  exists a b c d,
    pad4 y = String a (String b (String c (String d EmptyString)))
    /\ PyStr.isdigit a = true /\ PyStr.isdigit b = true
    /\ PyStr.isdigit c = true /\ PyStr.isdigit d = true
    /\ 1000 * digit a + 100 * digit b + 10 * digit c + digit d = y.
Proof.
  intros Hy.
  destruct (digit_digit_char (y / 1000)) as [Ha Ea]; [divlia|].
  destruct (digit_digit_char (y / 100 mod 10)) as [Hb Eb]; [divlia|].
  destruct (digit_digit_char (y / 10 mod 10)) as [Hc Ec]; [divlia|].
  destruct (digit_digit_char (y mod 10)) as [Hd Ed]; [divlia|].
  eexists _, _, _, _. split; [reflexivity|].
  repeat split; [done..|]. rewrite Ea, Eb, Ec, Ed. divlia.
Qed.

Lemma days_in_month_le_31 y m : 1 <= m <= 12 -> days_in_month y m <= 31.
Proof.
  intros Hm. unfold days_in_month.
  destruct (is_leap y);
    destruct (month_cases m Hm) as
      [->|[->|[->|[->|[->|[->|[->|[->|[->|[->|[->| ->]]]]]]]]]]];
    vm_compute; discriminate.
Qed.

Lemma In_all_tails t m d :
  In (t, m, d) all_tails <->
  1 <= m <= 12 /\ 1 <= d <= 31
  /\ exists mt dt, In mt (month_texts m) /\ In dt (day_texts d)
                   /\ t = tail_text mt dt.
Proof.
  unfold all_tails. rewrite <- list_elem_of_In, list_elem_of_bind.
  setoid_rewrite list_elem_of_bind. setoid_rewrite list_elem_of_bind.
  setoid_rewrite list_elem_of_bind. setoid_rewrite list_elem_of_singleton.
  setoid_rewrite elem_of_seqZ. setoid_rewrite <- list_elem_of_In.
  split.
  - intros (m' & (d' & (mt & (dt & E & Hdt) & Hmt) & Hd) & Hm).
    injection E as -> -> ->. repeat split; [lia..|]. eauto.
  - intros (Hm & Hd & mt & dt & Hmt & Hdt & ->).
    exists m. split; [|lia]. exists d. split; [|lia]. eauto.
Qed.

Lemma In_renderings s d :
  In s (renderings d) <->
  exists mt dt, In mt (month_texts (month d)) /\ In dt (day_texts (day d))
                /\ s = (pad4 (year d) ++ tail_text mt dt)%string.
Proof.
  unfold renderings. rewrite <- list_elem_of_In, list_elem_of_bind.
  setoid_rewrite list_elem_of_bind. setoid_rewrite list_elem_of_singleton.
  setoid_rewrite <- list_elem_of_In.
  split.
  - intros (mt & (dt & -> & Hdt) & Hmt). eauto.
  - intros (mt & dt & Hmt & Hdt & ->). eauto.
Qed.

Lemma strptime_renderings s d :
  strptime s "%Y-%m-%d" = Some d <->
  valid_date d = true /\ In s (renderings d).
Proof.
  rewrite In_renderings. split.
  - intros H.
    destruct s as [|a [|b [|c [|e t]]]];
      try (rewrite strptime_short in H by (cbn; lia); discriminate).
    rewrite strptime_tail in H.
    destruct (_ && _) eqn:E; [|done].
    rewrite !andb_true_iff in E. destruct E as [[[Ha Hb] Hc] He].
    destruct (tail_parse t) as [[m dd]|] eqn:Ht; [|done].
    cbn [mbind option_bind] in H.
    apply mkdate_Some in H as [-> Hv]. split; [done|].
    apply tail_parse_inv, In_all_tails in Ht
      as (_ & _ & mt & dt & Hmt & Hdt & ->).
    exists mt, dt. cbn [year month day]. by rewrite pad4_of_digits.
  - intros (Hv & mt & dt & Hmt & Hdt & ->).
    pose proof Hv as (Hy & Hm & Hd)%valid_date_iff.
    destruct (pad4_digits (year d)) as (a & b & c & e & -> & Ha & Hb & Hc & He & Ey);
      [lia|].
    change ((String a (String b (String c (String e ""))) ++ ?t)%string)
      with (String a (String b (String c (String e t)))).
    rewrite strptime_tail, Ha, Hb, Hc, He, Ey. cbn [andb].
    rewrite (tail_parse_table _ (month d) (day d)).
    + cbn [mbind option_bind]. unfold mkdate. destruct d as [y m dd].
      cbn [year month day] in *. by rewrite Hv.
    + apply In_all_tails. pose proof (days_in_month_le_31 (year d) _ Hm).
      repeat split; [lia..|]. eauto.
Qed.

End StrptimeFacts.

(** ** What strftime writes for "%Y.%m.%d" *)

Section StrftimeFacts.
Import Strptime.

Lemma length_append s t :
  String.length (s ++ t) = (String.length s + String.length t)%nat.
Proof.
  induction s as [|c s IH]; [done|].
  change (String.length (String c (s ++ t))
          = S (String.length s + String.length t)).
  cbn [String.length]. by rewrite IH.
Qed.

Lemma append_inj_length a a' b b' :
  String.length b = String.length b' ->
  (a ++ b)%string = (a' ++ b')%string -> a = a' /\ b = b'.
Proof.
  intros Hlen. revert a'. induction a as [|c a IH]; intros [|c' a'] H.
  - done.
  - apply (f_equal String.length) in H. change ("" ++ b)%string with b in H.
    rewrite length_append in H. cbn in H. lia.
  - apply (f_equal String.length) in H. change ("" ++ b')%string with b' in H.
    rewrite length_append in H. cbn in H. lia.
  - change (String c (a ++ b) = String c' (a' ++ b'))%string in H.
    injection H as -> H. by destruct (IH _ H) as [-> ->].
Qed.

Lemma decimal_inj n1 n2 :
  0 <= n1 -> 0 <= n2 -> decimal n1 = decimal n2 -> n1 = n2.
Proof.
  intros H1 H2 E. unfold decimal in E.
  assert (Hu : forall n, N.to_uint n <> Decimal.Nil).
  { intros [|p]; [done|]. apply Unsigned.to_uint_nonnil. }
  assert (N.to_uint (Z.to_N n1) = N.to_uint (Z.to_N n2)).
  { pose proof (NilZero.usu _ (Hu (Z.to_N n1))) as E1.
    pose proof (NilZero.usu _ (Hu (Z.to_N n2))) as E2.
    rewrite E in E1. congruence. }
  apply (f_equal N.of_uint) in H. rewrite !DecimalN.Unsigned.of_to in H. lia.
Qed.

Lemma pad2_facts n1 :
  1 <= n1 <= 31 ->
  String.length (pad2 n1) = 2%nat
  /\ forall n2, 1 <= n2 <= 31 -> pad2 n1 = pad2 n2 -> n1 = n2.
Proof.
  intros H1.
  assert (H : forallb pad2_check (seqZ 1 31) = true) by (vm_compute; reflexivity).
  rewrite forallb_forall in H. specialize (H n1).
  unfold pad2_check in H. rewrite andb_true_iff, Nat.eqb_eq, forallb_forall in H.
  destruct H as [Hl Hi]; [apply list_elem_of_In, elem_of_seqZ; lia|].
  split; [done|]. intros n2 H2 E.
  specialize (Hi n2). rewrite E, String.eqb_refl in Hi. cbn [implb] in Hi.
  apply Z.eqb_eq, Hi, list_elem_of_In, elem_of_seqZ. lia.
Qed.

Lemma strftime_dots d :
  strftime d "%Y.%m.%d"
  = (decimal (year d) ++ String "." (pad2 (month d) ++ String "." (pad2 (day d))))%string.
Proof.
  cbn [strftime]. change (Ascii.eqb "Y" "Y") with true. cbv iota.
  assert (E : forall s, (s ++ "")%string = s).
  { induction s as [|c s IH]; [done|].
    change (String c (s ++ "") = String c s). by rewrite IH. }
  cbv [Ascii.eqb Bool.eqb]. by rewrite E.
Qed.

(** A text is the rendering of at most one date. *)
Lemma strftime_inj d1 d2 :
  valid_date d1 = true -> valid_date d2 = true ->
  strftime d1 "%Y.%m.%d" = strftime d2 "%Y.%m.%d" -> d1 = d2.
Proof.
  intros (Hy1 & Hm1 & Hd1)%valid_date_iff (Hy2 & Hm2 & Hd2)%valid_date_iff.
  pose proof (days_in_month_le_31 (year d1) _ Hm1).
  pose proof (days_in_month_le_31 (year d2) _ Hm2).
  rewrite !strftime_dots. intros E.
  destruct (pad2_facts (month d1)) as [Lm1 Im]; [lia|].
  destruct (pad2_facts (month d2)) as [Lm2 _]; [lia|].
  destruct (pad2_facts (day d1)) as [Ld1 Id]; [lia|].
  destruct (pad2_facts (day d2)) as [Ld2 _]; [lia|].
  apply append_inj_length in E as [Ey E];
    [|cbn [String.length]; rewrite !length_append; cbn [String.length]; lia].
  injection E as E.
  apply append_inj_length in E as [Em E]; [|cbn [String.length]; lia].
  injection E as E.
  apply decimal_inj in Ey; [|lia..]. apply Im in Em; [|lia]. apply Id in E; [|lia].
  destruct d1, d2. cbn [year month day] in *. congruence.
Qed.

End StrftimeFacts.

(** ** Upcoming birthdays *)

Section BirthdayFacts.

Lemma birthday_in_year_valid birthday_date y d :
  birthday_in_year birthday_date y = Ok d -> valid_date d = true.
Proof.
  unfold birthday_in_year, replace.
  destruct (mkdate _ _ _) eqn:E1.
  { intros [= <-]. by apply mkdate_Some in E1 as [_ ?]. }
  clear E1. destruct (mkdate _ _ _) eqn:E2; [|done].
  intros [= <-]. by apply mkdate_Some in E2 as [_ ?].
Qed.

Lemma next_birthday_valid today birthday_date d :
  next_birthday today birthday_date = Ok d -> valid_date d = true.
Proof.
  unfold next_birthday.
  destruct (birthday_in_year birthday_date (year today)) as [d0|] eqn:E0;
    [|done].
  cbn [bind]. destruct (lt d0 today).
  - apply birthday_in_year_valid.
  - intros [= <-]. by apply birthday_in_year_valid in E0.
Qed.

(** Moving off the weekend never overflows the calendar (its last day,
    9999-12-31, is a Friday), adds [weekend_shift] days and lands on
    Monday to Friday. *)
Lemma move_off_weekend_ok next_birthday :
  valid_date next_birthday = true ->
  exists d,
    move_off_weekend next_birthday = Ok d
    /\ valid_date d = true
    /\ toordinal d = toordinal next_birthday + weekend_shift next_birthday
    /\ 0 <= weekday d <= 4.
Proof.
  intros Hv. pose proof (toordinal_bounds _ Hv) as Hb.
  unfold move_off_weekend, weekend_shift, plus_days, add_days, fromordinal.
  unfold MAXORDINAL in *.
  assert (Hw : 0 <= weekday next_birthday < 7)
    by (unfold weekday; divlia).
  destruct (Z.eqb_spec (weekday next_birthday) 5) as [H5|H5];
    [|destruct (Z.eqb_spec (weekday next_birthday) 6) as [H6|H6]].
  - assert (Ho : 1 <= toordinal next_birthday + 2 <= 3652059)
      by (unfold weekday in H5; divlia).
    destruct (ord2ymd_ok _ Ho) as [Hvd Hod].
    destruct (_ && _) eqn:E;
      [|rewrite andb_false_iff, Z.ltb_ge, Z.leb_gt in E; lia].
    eexists. repeat split; [done|done| |]; unfold weekday in *;
      rewrite Hod; divlia.
  - assert (Ho : 1 <= toordinal next_birthday + 1 <= 3652059)
      by (unfold weekday in H6; divlia).
    destruct (ord2ymd_ok _ Ho) as [Hvd Hod].
    destruct (_ && _) eqn:E;
      [|rewrite andb_false_iff, Z.ltb_ge, Z.leb_gt in E; lia].
    eexists. repeat split; [done|done| |]; unfold weekday in *;
      rewrite Hod; divlia.
  - exists next_birthday. repeat split; [done|lia|lia|lia].
Qed.

(** What a completed run of the loop leaves in the list: the greetings
    of its iterations, in order, after what was there. *)
Lemma loop_Ok today users acc out :
  loop today users acc = Ok out ->
  exists gs,
    Forall2 (fun user g => loop_body today user = Ok g) users gs
    /\ out = acc ++ omap id gs.
Proof.
  revert acc. induction users as [|user users IH]; intros acc H.
  - injection H as <-. exists []. split; [constructor|].
    by rewrite app_nil_r.
  - cbn [loop] in H.
    destruct (loop_body today user) as [g|] eqn:E; [|done].
    cbn [bind] in H. destruct (IH _ H) as (gs & Hgs & ->).
    exists (g :: gs). split; [by constructor|].
    rewrite <- app_assoc. by destruct g.
Qed.

Lemma get_upcoming_birthdays_elem_of today users out g :
  get_upcoming_birthdays today users = Ok out ->
  g ∈ out <-> exists user, user ∈ users /\ loop_body today user = Ok (Some g).
Proof.
  intros (gs & Hgs & ->)%loop_Ok. cbn [app].
  rewrite list_elem_of_omap. split.
  - intros (o & Ho & Hg). cbn in Hg. subst o.
    apply list_elem_of_lookup in Ho as [i Hi].
    destruct (Forall2_lookup_r _ _ _ _ _ Hgs Hi) as (user & Hu & Hb).
    exists user. split; [|done]. by eapply list_elem_of_lookup_2.
  - intros (user & Hu & Hb).
    apply list_elem_of_lookup in Hu as [i Hi].
    destruct (Forall2_lookup_l _ _ _ _ _ Hgs Hi) as (o & Ho & Hb').
    exists o. split; [by eapply list_elem_of_lookup_2|].
    rewrite Hb in Hb'. by injection Hb' as <-.
Qed.

(** One iteration on a record whose birthday parses and falls in the
    window. *)
Lemma loop_body_in_window today user name birthday birthday_date occurrence :
  user !! "name" = Some name ->
  user !! "birthday" = Some birthday ->
  Strptime.strptime birthday "%Y.%m.%d" = Some birthday_date ->
  next_birthday today birthday_date = Ok occurrence ->
  0 <= sub_days occurrence today <= 7 ->
  exists d,
    loop_body today user = Ok (Some (greeting name d))
    /\ valid_date d = true
    /\ toordinal d = toordinal occurrence + weekend_shift occurrence
    /\ 0 <= weekday d <= 4.
Proof.
  intros Hname Hb Hparse Hocc Hwin.
  destruct (move_off_weekend_ok occurrence) as (d & Hd & Hv & Ho & Hw);
    [by eapply next_birthday_valid|].
  exists d. split; [|done].
  unfold loop_body. rewrite Hb. cbn [mbind option_bind]. rewrite Hparse, Hocc.
  cbn [bind].
  destruct (_ && _) eqn:E;
    [|rewrite andb_false_iff, !Z.leb_gt in E; lia].
  rewrite Hd. cbn [bind]. unfold getitem. by rewrite Hname.
Qed.

(** Whatever one iteration appends is the greeting for a date from
    Monday to Friday. *)
Lemma loop_body_weekday today user g :
  loop_body today user = Ok (Some g) ->
  exists name d,
    g = greeting name d /\ valid_date d = true /\ 0 <= weekday d <= 4.
Proof.
  unfold loop_body.
  destruct (_ ≫= _) as [birthday_date|]; [|done].
  destruct (next_birthday today birthday_date) as [occ|] eqn:Hocc; [|done].
  cbn [bind]. destruct (_ && _); [|done].
  destruct (move_off_weekend_ok occ) as (d & Hd & Hv & _ & Hw);
    [by eapply next_birthday_valid|].
  rewrite Hd. cbn [bind]. unfold getitem.
  destruct (user !! "name") as [name|]; [|done].
  cbn [bind]. intros [= <-]. by exists name, d.
Qed.

Lemma strptime_valid s format d :
  Strptime.strptime s format = Some d -> valid_date d = true.
Proof.
  unfold Strptime.strptime. intros H.
  destruct (Strptime.pattern format) as [rs|]; [|done].
  cbn [mbind option_bind] in H.
  destruct (Re.match_ _ s) as [[[tx g] rest]|]; [|done].
  cbn [mbind option_bind] in H.
  destruct (String.eqb rest ""); [|done].
  destruct (Strptime.field g "Y" 1900) as [y|]; [|done].
  destruct (Strptime.field g "m" 1) as [m|]; [|done].
  destruct (Strptime.field g "d" 1) as [dd|]; [|done].
  cbn [mbind option_bind] in H. by apply mkdate_Some in H as [_ ?].
Qed.

Lemma days_in_month_any_year y0 y m :
  1 <= m <= 12 ->
  days_in_month y0 m <= days_in_month y m
  \/ (m = 2 /\ days_in_month y0 m = 29 /\ days_in_month y m = 28).
Proof.
  intros Hm. unfold days_in_month.
  destruct (is_leap y0), (is_leap y);
    destruct (month_cases m Hm) as
      [->|[->|[->|[->|[->|[->|[->|[->|[->|[->|[->| ->]]]]]]]]]]];
    eval_month; lia.
Qed.

(** With a year the calendar has, lines 86-91 (and 94-99) raise nothing. *)
Lemma birthday_in_year_total birthday_date y :
  valid_date birthday_date = true -> 1 <= y <= 9999 ->
  exists d, birthday_in_year birthday_date y = Ok d.
Proof.
  intros (Hy0 & Hm & Hd)%valid_date_iff Hy.
  unfold birthday_in_year, replace, mkdate. cbn [from_option]. unfold id.
  destruct (valid_date (Date y (month birthday_date) (day birthday_date)))
    eqn:E1; [eauto|].
  destruct (valid_date (Date y (month birthday_date) (day birthday_date - 1)))
    eqn:E2; [eauto|].
  exfalso.
  destruct (days_in_month_any_year (year birthday_date) y _ Hm) as [H|(_ & H1 & H2)].
  - assert (valid_date (Date y (month birthday_date) (day birthday_date)) = true)
      by (apply valid_date_iff; cbn [year month day]; lia).
    congruence.
  - assert (valid_date (Date y (month birthday_date) (day birthday_date - 1)) = true)
      by (apply valid_date_iff; cbn [year month day];
          assert (day birthday_date <> 1)
            by (intros E; rewrite <- not_true_iff_false in E1; apply E1;
                apply valid_date_iff; cbn [year month day]; lia);
          lia).
    congruence.
Qed.

Lemma next_birthday_total today birthday_date :
  valid_date today = true -> year today < 9999 ->
  valid_date birthday_date = true ->
  exists d, next_birthday today birthday_date = Ok d.
Proof.
  intros (Hy & _)%valid_date_iff Hlast Hv. unfold next_birthday.
  destruct (birthday_in_year_total birthday_date (year today)) as [d ->];
    [done|lia|].
  cbn [bind]. destruct (lt d today); [|eauto].
  apply birthday_in_year_total; [done|lia].
Qed.

(** An iteration raises nothing when the record has a name (and the next
    year is a year of the calendar). *)
Lemma loop_body_total today user :
  valid_date today = true -> year today < 9999 ->
  is_Some (user !! "name") ->
  exists g, loop_body today user = Ok g.
Proof.
  intros Hv Hlast [name Hname]. unfold loop_body.
  destruct (_ ≫= _) as [birthday_date|] eqn:E; [|eauto].
  assert (Hb : valid_date birthday_date = true).
  { destruct (user !! "birthday") as [b|]; [|done].
    cbn [mbind option_bind] in E. by eapply strptime_valid. }
  destruct (next_birthday_total today birthday_date) as [occ Hocc]; [done..|].
  rewrite Hocc. cbn [bind]. destruct (_ && _); [|eauto].
  destruct (move_off_weekend_ok occ) as (d & -> & _);
    [by eapply next_birthday_valid|].
  cbn [bind]. unfold getitem. rewrite Hname. cbn [bind]. eauto.
Qed.

(** The call returns when every record has a name. *)
Lemma get_upcoming_birthdays_returns today users :
  valid_date today = true -> year today < 9999 ->
  Forall (fun user => is_Some (user !! "name")) users ->
  exists out, get_upcoming_birthdays today users = Ok out.
Proof.
  intros Hv Hlast Hnames. unfold get_upcoming_birthdays.
  generalize (@nil (gmap string string)).
  induction Hnames as [|user users Hname _ IH]; intros acc; [by eexists|].
  cbn [loop]. destruct (loop_body_total today user) as [g ->]; [done..|].
  cbn [bind]. apply IH.
Qed.

(** A record without a birthday, or with one that does not parse, is
    skipped. *)
Lemma loop_body_skips today user :
  user !! "birthday" ≫= (fun b => Strptime.strptime b "%Y.%m.%d") = None ->
  loop_body today user = Ok None.
Proof. unfold loop_body. by intros ->. Qed.

End BirthdayFacts.

(** The examples of the specification: a birthday ten days away is left
    out, and a birthday that is no date is skipped. *)
Example get_upcoming_birthdays_ex1 :
  get_upcoming_birthdays (Date 2024 1 20)
    [ {[ "name" := "John Doe"; "birthday" := "1985.01.30" ]};
      {[ "name" := "Jane Smith"; "birthday" := "not-a-date" ]} ]
  = Ok [].
Proof. vm_compute. reflexivity. Qed.

(** C1, at the failing input: a record with a birthday inside the window
    and no "name" is not skipped; the KeyError of line 112 leaves the
    call. *)
Theorem get_upcoming_birthdays_missing_name_raises :
  get_upcoming_birthdays (Date 2024 1 20) [ {[ "birthday" := "1990.01.22" ]} ]
  = Raise (KeyError "name").
Proof. vm_compute. reflexivity. Qed.

(** C4, at the failing input: on 2024-01-20 the record of Jane Smith, whose
    birthday occurrence 2024-01-27 is seven days ahead, is followed (or
    preceded) by a record with a birthday inside the window and no "name".
    The KeyError of line 112 leaves the call, and with it goes the greeting
    of Jane Smith: the call returns no list at all. *)
Theorem upcoming_birthday_lost_to_missing_name :
  get_upcoming_birthdays (Date 2024 1 20)
    [ {[ "name" := "Jane Smith"; "birthday" := "1990.01.27" ]};
      {[ "birthday" := "1990.01.22" ]} ]
  = Raise (KeyError "name")
  /\ get_upcoming_birthdays (Date 2024 1 20)
       [ {[ "birthday" := "1990.01.22" ]};
         {[ "name" := "Jane Smith"; "birthday" := "1990.01.27" ]} ]
     = Raise (KeyError "name").
Proof. split; vm_compute; reflexivity. Qed.

(** X20: a record with a name whose birthday occurrence (this year's, or
    next year's when this year's has passed) lies 0 to 7 days from today
    gets a greeting whenever the call returns, and alone in the list it
    makes the call return; its congratulation_date is the occurrence moved
    forward by 2 days from a Saturday, by 1 day from a Sunday, and not
    moved otherwise.  With today = 2024-01-20 the birthday "1990.01.27",
    whose occurrence 2024-01-27 is a Saturday, yields "2024.01.29". *)
Theorem upcoming_birthday_moved_off_weekend :
  (forall today user name birthday birthday_date occurrence,
      user !! "name" = Some name ->
      user !! "birthday" = Some birthday ->
      Strptime.strptime birthday "%Y.%m.%d" = Some birthday_date ->
      next_birthday today birthday_date = Ok occurrence ->
      0 <= sub_days occurrence today <= 7 ->
      exists d,
        valid_date d = true
        /\ toordinal d
           = toordinal occurrence
             + (if weekday occurrence =? 5 then 2
                else if weekday occurrence =? 6 then 1 else 0)
        /\ get_upcoming_birthdays today [user] = Ok [greeting name d]
        /\ forall users out,
             user ∈ users -> get_upcoming_birthdays today users = Ok out ->
             greeting name d ∈ out)
  /\ weekday (Date 2024 1 27) = 5
  /\ get_upcoming_birthdays (Date 2024 1 20)
       [ {[ "name" := "Jane Smith"; "birthday" := "1990.01.27" ]} ]
     = Ok [ {[ "name" := "Jane Smith";
               "congratulation_date" := "2024.01.29" ]} ].
Proof.
  split; [|split; vm_compute; reflexivity].
  intros today user name birthday birthday_date occurrence
    Hname Hb Hparse Hocc Hwin.
  destruct (loop_body_in_window _ _ _ _ _ _ Hname Hb Hparse Hocc Hwin)
    as (d & Hbody & Hv & Ho & _).
  exists d. repeat split; [done|done| |].
  - unfold get_upcoming_birthdays. cbn [loop]. by rewrite Hbody.
  - intros users out Hu Hout.
    apply (get_upcoming_birthdays_elem_of _ _ _ _ Hout). eauto.
Qed.

Lemma upcoming_birthday_moved_off_weekend_witness :
  exists d,
    valid_date d = true
    /\ toordinal d = toordinal (Date 2024 1 28) + 1
    /\ get_upcoming_birthdays (Date 2024 1 22)
         [ {[ "name" := "Ann"; "birthday" := "2001.01.28" ]} ]
       = Ok [greeting "Ann" d]
    /\ forall users out,
         {[ "name" := "Ann"; "birthday" := "2001.01.28" ]} ∈ users ->
         get_upcoming_birthdays (Date 2024 1 22) users = Ok out ->
         greeting "Ann" d ∈ out.
Proof.
  apply (proj1 upcoming_birthday_moved_off_weekend
           (Date 2024 1 22) {[ "name" := "Ann"; "birthday" := "2001.01.28" ]}
           "Ann" "2001.01.28" (Date 2001 1 28) (Date 2024 1 28));
    [vm_compute; reflexivity ..|split; apply Z.leb_le; vm_compute; reflexivity].
Defined.

(** C10: whenever the call returns, the congratulation_date of every
    greeting it returns is the text of a date, and the date it is the text
    of falls on Monday (0) to Friday (4): none is a Saturday or a
    Sunday. *)
Theorem congratulation_date_on_a_weekday today users out g :
  get_upcoming_birthdays today users = Ok out ->
  g ∈ out ->
  (exists d,
      valid_date d = true
      /\ g !! "congratulation_date" = Some (Strptime.strftime d "%Y.%m.%d"))
  /\ forall d,
       valid_date d = true ->
       g !! "congratulation_date" = Some (Strptime.strftime d "%Y.%m.%d") ->
       0 <= weekday d <= 4.
Proof.
  intros Hout Hg.
  apply (get_upcoming_birthdays_elem_of _ _ _ _ Hout) in Hg
    as (user & _ & Hbody).
  apply loop_body_weekday in Hbody as (name & d & -> & Hv & Hw).
  assert (Hd : greeting name d !! "congratulation_date"
               = Some (Strptime.strftime d "%Y.%m.%d"))
    by (unfold greeting; by rewrite lookup_insert_ne, lookup_singleton_eq).
  split; [by exists d|].
  intros d' Hv' Hd'. rewrite Hd in Hd'. injection Hd' as E.
  by rewrite <- (strftime_inj d d').
Qed.

Lemma congratulation_date_on_a_weekday_witness :
  0 <= weekday (Date 2024 1 29) <= 4.
Proof.
  apply (congratulation_date_on_a_weekday (Date 2024 1 20)
           [ {[ "name" := "Jane Smith"; "birthday" := "1990.01.27" ]} ]
           [ {[ "name" := "Jane Smith";
                "congratulation_date" := "2024.01.29" ]} ]
           {[ "name" := "Jane Smith"; "congratulation_date" := "2024.01.29" ]}).
  - vm_compute. reflexivity.
  - apply list_elem_of_here.
  - reflexivity.
  - vm_compute. reflexivity.
Defined.




(** ** The date distance and its input format *)

Lemma iso_in_renderings d : In (iso d) (renderings d).
Proof.
  apply In_renderings. exists (Strptime.pad2 (month d)), (Strptime.pad2 (day d)).
  split; [right; by left|]. split; [|done].
  unfold day_texts, Strptime.pad2. destruct (day d <? 10); [right|]; by left.
Qed.

Example get_days_from_today_ex1 :
  get_days_from_today (Date 2024 1 1) "2024-13-01"
  = Raise (ValueError invalid_date_format).
Proof. vm_compute. reflexivity. Qed.

(** C2, as the specification states it, fails: from 2021-10-09 to
    2024-01-01 the program does not count 815 days. *)
Lemma get_days_from_today_not_815 :
  get_days_from_today (Date 2024 1 1) "2021-10-09" <> Ok 815.
Proof. vm_compute. discriminate. Qed.

(** C2, amended: with today fixed to 2024-01-01, [get_days_from_today]
    applied to "2021-10-09" returns exactly 814. *)
Theorem get_days_from_today_814 :
  get_days_from_today (Date 2024 1 1) "2021-10-09" = Ok 814.
Proof. vm_compute. reflexivity. Qed.

(** C8, at the failing input: "2021-1-9" is the 'YYYY-MM-DD' writing of
    no date, and the call does not raise the ValueError of line 18 on it:
    it returns the distance of 2021-01-09. *)
Theorem get_days_from_today_unpadded_returns :
  (forall d, valid_date d = true -> "2021-1-9" <> iso d)
  /\ get_days_from_today (Date 2024 1 1) "2021-1-9" = Ok 1087.
Proof.
  split; [|vm_compute; reflexivity].
  intros [y m dd] (_ & Hm & _)%valid_date_iff E. cbn [month] in Hm.
  apply (f_equal (String.get 6)) in E.
  destruct (month_cases m Hm) as
    [->|[->|[->|[->|[->|[->|[->|[->|[->|[->|[->| ->]]]]]]]]]]];
    lazy in E; discriminate.
Qed.

(** X21: for the 'YYYY-MM-DD' writing of every valid date the call does
    not fail and returns today minus the date, in days: a negative number
    exactly when the date is after today, and zero exactly when it is
    today. *)
Theorem get_days_from_today_iso (today d : date) :
  valid_date today = true -> valid_date d = true ->
  get_days_from_today today (iso d) = Ok (sub_days today d)
  /\ (sub_days today d < 0 <-> lt today d = true)
  /\ (sub_days today d = 0 <-> d = today).
Proof.
  intros Hvt Hvd. split; [|split].
  - unfold get_days_from_today.
    by rewrite (proj2 (strptime_renderings (iso d) d))
      by (split; [done|apply iso_in_renderings]).
  - unfold sub_days. rewrite (toordinal_lt today d) by done. lia.
  - unfold sub_days. split; [|intros ->; lia].
    intros H. apply toordinal_inj; [done..|lia].
Qed.

Lemma get_days_from_today_iso_witness :
  get_days_from_today (Date 2024 1 1) (iso (Date 2024 1 2))
  = Ok (sub_days (Date 2024 1 1) (Date 2024 1 2))
  /\ (sub_days (Date 2024 1 1) (Date 2024 1 2) < 0
      <-> lt (Date 2024 1 1) (Date 2024 1 2) = true)
  /\ (sub_days (Date 2024 1 1) (Date 2024 1 2) = 0
      <-> Date 2024 1 2 = Date 2024 1 1).
Proof.
  apply (get_days_from_today_iso (Date 2024 1 1) (Date 2024 1 2)); reflexivity.
Defined.

(** * Further properties of the four functions *)

(** ** [normalize_phone] *)

Section PhoneMore.
Import PyStr PhoneSpec.
Local Abbreviation chars := list_ascii_of_string.
Local Abbreviation text := string_of_list_ascii.

Lemma isspace_not_digit c : isspace c = true -> isdigit c = false.
Proof.
  intros H. destruct (isdigit c) eqn:E; [|done].
  apply isdigit_not_space in E. congruence.
Qed.

Lemma chars_append s t : chars (s ++ t)%string = chars s ++ chars t.
Proof.
  induction s as [|c s IH]; [done|].
  change (c :: chars (s ++ t)%string = c :: (chars s ++ chars t)).
  by rewrite IH.
Qed.

Lemma text_append l k : text (l ++ k) = (text l ++ text k)%string.
Proof.
  induction l as [|c l IH]; [done|].
  change (String c (text (l ++ k)) = String c (text l ++ text k)).
  by rewrite IH.
Qed.

Lemma digits_of_app l k : digits_of (l ++ k) = digits_of l ++ digits_of k.
Proof. apply List.filter_app. Qed.

Lemma digits_of_rev l : digits_of (rev l) = rev (digits_of l).
Proof.
  induction l as [|c l IH]; [done|]. cbn [rev].
  rewrite digits_of_app, IH. unfold digits_of. cbn [List.filter].
  destruct (isdigit c); [done|]. apply app_nil_r.
Qed.

Lemma digits_of_drop_while l : digits_of (drop_while isspace l) = digits_of l.
Proof.
  induction l as [|c l IH]; [done|]. cbn [drop_while].
  destruct (isspace c) eqn:E; [|done].
  rewrite IH. unfold digits_of. cbn [List.filter].
  by rewrite (isspace_not_digit c E).
Qed.

Lemma digits_of_trim l : digits_of (trim l) = digits_of l.
Proof.
  unfold trim.
  by rewrite digits_of_rev, digits_of_drop_while, digits_of_rev, rev_involutive,
    digits_of_drop_while.
Qed.

Lemma digits_of_all l : forallb isdigit l = true -> digits_of l = l.
Proof.
  induction l as [|c l IH]; [done|]. cbn [forallb].
  intros [Hc Hl]%andb_true_iff. unfold digits_of in *. cbn [List.filter].
  by rewrite Hc, IH.
Qed.

Lemma drop_while_app {A} (P : A -> bool) l k :
  drop_while P (l ++ k)
  = if forallb P l then drop_while P k else drop_while P l ++ k.
Proof.
  induction l as [|x l IH]; [done|]. cbn [app drop_while forallb].
  by destruct (P x).
Qed.

Lemma drop_while_nil {A} (P : A -> bool) l :
  forallb P l = true <-> drop_while P l = [].
Proof.
  induction l as [|x l IH]; [done|]. cbn [drop_while forallb].
  destruct (P x); [apply IH|]. split; discriminate.
Qed.

Lemma forallb_rev {A} (P : A -> bool) l : forallb P (rev l) = forallb P l.
Proof.
  induction l as [|x l IH]; [done|]. cbn [rev forallb].
  rewrite forallb_app, IH. cbn [forallb]. rewrite andb_true_r. apply andb_comm.
Qed.

Lemma trim_pad ws l ws' :
  forallb isspace ws = true -> forallb isspace ws' = true ->
  trim (ws ++ l ++ ws') = trim l.
Proof.
  intros Hws Hws'. unfold trim. f_equal.
  rewrite drop_while_app, Hws, drop_while_app.
  destruct (forallb isspace l) eqn:El.
  - apply drop_while_nil in El as ->. by apply drop_while_nil in Hws' as ->.
  - rewrite rev_app_distr, drop_while_app, forallb_rev, Hws'. done.
Qed.

Lemma normalize_phone_formula phone_number :
  normalize_phone phone_number
  = String "+"
      ((if startswith (strip phone_number) "+"
           || startswith (re_sub nondigit "" phone_number) "380"
        then "" else "38")
       ++ re_sub nondigit "" phone_number)%string.
Proof.
  unfold normalize_phone. rewrite !re_sub_nondigit.
  assert (Hd : digits_of (chars (strip phone_number)) = digits_of (chars phone_number))
    by (rewrite strip_chars; apply digits_of_trim).
  destruct (strip phone_number) as [|c t] eqn:Hs.
  - cbn [startswith orb]. rewrite <- Hd. reflexivity.
  - change (startswith (String c t) "+")
      with (if Ascii.eqb "+" c then true else false).
    change (slice_from 1 (String c t)) with t.
    destruct (Ascii.eqb_spec "+" c) as [<-|Hc].
    + cbn [orb]. rewrite <- Hd. reflexivity.
    + cbn [orb]. rewrite Hd. by destruct (startswith _ "380").
Qed.

Lemma drop_while_head {A} (P : A -> bool) l :
  match l with x :: _ => P x = false | [] => True end -> drop_while P l = l.
Proof. destruct l as [|x l]; [done|]. cbn [drop_while]. by intros ->. Qed.

Lemma trim_plus_digits ds :
  forallb isdigit ds = true -> trim ("+"%char :: ds) = "+"%char :: ds.
Proof.
  intros Hds. unfold trim.
  rewrite (drop_while_head isspace ("+"%char :: ds)) by reflexivity.
  rewrite drop_while_head; [apply rev_involutive|].
  cbn [rev]. destruct (rev ds) as [|c r] eqn:E; [reflexivity|].
  cbn [app]. apply isdigit_not_space.
  rewrite <- forallb_rev, E in Hds. cbn [forallb] in Hds.
  by apply andb_true_iff in Hds as [? _].
Qed.

Lemma normalize_phone_fixed ds :
  forallb isdigit ds = true ->
  normalize_phone (String "+" (text ds)) = String "+" (text ds).
Proof.
  intros Hds. rewrite normalize_phone_steps. unfold PhoneSpec.normalize.
  cbn [chars]. rewrite chars_text, trim_plus_digits by done.
  by rewrite digits_of_all.
Qed.

Lemma normalize_phone_shape phone_number :
  exists ds,
    normalize_phone phone_number = String "+" (text ds)
    /\ forallb isdigit ds = true.
Proof.
  rewrite normalize_phone_formula, re_sub_nondigit.
  destruct (_ || _).
  - exists (digits_of (chars phone_number)). split; [done|].
    apply forallb_digits_of.
  - exists ("3"%char :: "8"%char :: digits_of (chars phone_number)).
    split; [done|]. cbn [forallb]. by rewrite forallb_digits_of.
Qed.

(** X1: the result does not depend on how the digits were set out: it is
    '+', then "38" unless the trimmed input starts with '+' or its digits
    start with "380", then every digit of the input in order. *)
Theorem normalize_phone_closed_form phone_number :
  normalize_phone phone_number
  = String "+"
      ((if startswith (strip phone_number) "+"
           || startswith (re_sub nondigit "" phone_number) "380"
        then "" else "38")
       ++ re_sub nondigit "" phone_number)%string.
Proof. apply normalize_phone_formula. Qed.

(** X2: normalising twice is normalising once. *)
Theorem normalize_phone_idempotent phone_number :
  normalize_phone (normalize_phone phone_number) = normalize_phone phone_number.
Proof.
  destruct (normalize_phone_shape phone_number) as (ds & -> & Hds).
  by apply normalize_phone_fixed.
Qed.

(** X3: the strings [normalize_phone] leaves as they are are exactly the
    strings in canonical phone format. *)
Theorem normalize_phone_fixed_points p :
  normalize_phone p = p <-> canonical_phone p = true.
Proof.
  split.
  - intros <-. destruct (normalize_phone_shape p) as (ds & -> & Hds).
    unfold canonical_phone. cbn [startswith slice_from].
    change (Ascii.eqb "+" "+") with true. cbv iota. by rewrite chars_text.
  - unfold canonical_phone. destruct p as [|c t]; [done|].
    change (startswith (String c t) "+")
      with (if Ascii.eqb "+" c then true else false).
    change (slice_from 1 (String c t)) with t.
    destruct (Ascii.eqb_spec "+" c) as [<-|]; [|done].
    cbn [andb]. intros Ht.
    rewrite <- (string_of_list_ascii_of_string t). by apply normalize_phone_fixed.
Qed.

(** X4: whitespace put before and after the input changes nothing. *)
Theorem normalize_phone_ignores_padding ws phone_number ws' :
  forallb isspace (chars ws) = true -> forallb isspace (chars ws') = true ->
  normalize_phone (ws ++ phone_number ++ ws') = normalize_phone phone_number.
Proof.
  intros Hws Hws'. rewrite !normalize_phone_steps. unfold PhoneSpec.normalize.
  by rewrite !chars_append, trim_pad.
Qed.

Lemma normalize_phone_ignores_padding_witness :
  normalize_phone ("  " ++ "(050)8889900" ++ String "010" "")
  = normalize_phone "(050)8889900".
Proof.
  apply (normalize_phone_ignores_padding "  " "(050)8889900" (String "010" ""));
    reflexivity.
Defined.

(** X5: an input that does not start with '+' once trimmed always comes
    out with the country code: the result starts with "+38". *)
Theorem normalize_phone_adds_country_code phone_number :
  startswith (strip phone_number) "+" = false ->
  startswith (normalize_phone phone_number) "+38" = true.
Proof.
  intros H. rewrite normalize_phone_formula, H. cbn [orb].
  destruct (startswith (re_sub nondigit "" phone_number) "380") eqn:E;
    [|reflexivity].
  change (("" ++ ?x)%string) with x.
  revert E.
  destruct (re_sub nondigit "" phone_number) as [|c1 [|c2 [|c3 r]]];
    cbn [startswith];
    repeat match goal with
      | |- context [Ascii.eqb ?a ?b] => destruct (Ascii.eqb_spec a b) as [<-|]
      end;
    first [done | congruence].
Qed.

Lemma normalize_phone_adds_country_code_witness :
  startswith (normalize_phone "(095) 234-5678") "+38" = true.
Proof. apply (normalize_phone_adds_country_code "(095) 234-5678"). reflexivity. Defined.

End PhoneMore.

(** ** [get_numbers_ticket] *)

Section LotteryMore.
Import Random.

Lemma StronglySorted_lt_le l : StronglySorted Z.lt l -> StronglySorted Z.le l.
Proof.
  induction 1 as [|x l _ IH Hx]; constructor; [done|].
  eapply Forall_impl; [done|]. intros; cbn in *; lia.
Qed.

Lemma StronglySorted_lt_NoDup l : StronglySorted Z.lt l -> NoDup l.
Proof.
  induction 1 as [|x l _ IH Hx]; constructor; [|done].
  intros Hin. rewrite Forall_forall in Hx. specialize (Hx _ Hin). lia.
Qed.

Lemma sort_sorted l : StronglySorted Z.le l -> sort l = l.
Proof.
  intros Hl. apply (StronglySorted_unique Z.le); [|done|apply sort_Permutation].
  apply StronglySorted_merge_sort; apply _.
Qed.

Lemma range_sorted lo hi : StronglySorted Z.lt (range lo hi).
Proof.
  unfold range, seqZ. generalize (Z.to_nat (hi - lo)) as n. intros n.
  generalize 0%nat as k.
  induction n as [|n IH]; intros k; cbn [seq fmap list_fmap]; constructor.
  - apply IH.
  - apply Forall_forall. intros x Hx.
    apply list_elem_of_fmap in Hx as (i & -> & Hi).
    apply elem_of_seq in Hi. lia.
Qed.

(** Any list of distinct members of the population is a sample of it. *)
Lemma sample_of_subset {A} (pop l : list A) :
  NoDup l -> (forall x, x ∈ l -> x ∈ pop) -> sample pop (length l) l.
Proof.
  intros Hnd. revert pop. induction Hnd as [|x l Hx _ IH]; intros pop Hsub.
  - constructor.
  - destruct (list_elem_of_split pop x) as (l1 & l2 & ->);
      [apply Hsub; by left|].
    cbn [length]. apply sample_cons, IH. intros y Hy.
    specialize (Hsub y (list_elem_of_further _ _ _ Hy)).
    rewrite elem_of_app, elem_of_cons in Hsub. rewrite elem_of_app.
    destruct Hsub as [?|[->|?]]; [by left|done|by right].
Qed.

(** A sample as large as the population is a rearrangement of it. *)
Lemma sample_all {A} (pop res : list A) :
  sample pop (length pop) res -> res ≡ₚ pop.
Proof.
  intros H. pose proof (sample_length _ _ _ H) as Hlen.
  apply sample_Permutation in H as [rest Hp].
  assert (rest = []) as ->.
  { apply Permutation_length in Hp.
    rewrite length_app in Hp. destruct rest; [done|]. cbn in Hp. lia. }
  by rewrite app_nil_r in Hp.
Qed.

Lemma ticket_guard min_val max_val quantity :
  (min_val <? 1) || (max_val >? 1000) || (quantity <? 1)
  || (quantity >? max_val - min_val + 1) = true
  <-> invalid_ticket min_val max_val quantity.
Proof.
  unfold invalid_ticket.
  rewrite !orb_true_iff, !Z.gtb_ltb, !Z.ltb_lt. lia.
Qed.

Lemma get_numbers_ticket_valid_iff min_val max_val quantity out :
  ~ invalid_ticket min_val max_val quantity ->
  get_numbers_ticket min_val max_val quantity out <->
  exists res,
    sample (range min_val (max_val + 1)) (Z.to_nat quantity) res
    /\ out = Ok (sort res).
Proof.
  intros Hv. unfold get_numbers_ticket.
  destruct (_ || _) eqn:E; [by apply ticket_guard in E|]. clear E.
  unfold invalid_ticket in Hv.
  unfold sample_outcome. rewrite length_range.
  destruct (_ || _) eqn:E2.
  { rewrite orb_true_iff, !Z.ltb_lt in E2. lia. }
  split.
  - intros (drawn & (res & Hres & ->) & ->). by exists res.
  - intros (res & Hres & ->). exists (Ok res). split; [by exists res|done].
Qed.

(** X6: for all arguments the call raises nothing, and the list it returns
    is empty exactly when the arguments fail the check of lines 36-41. *)
Theorem get_numbers_ticket_never_raises min_val max_val quantity out :
  get_numbers_ticket min_val max_val quantity out ->
  exists numbers,
    out = Ok numbers
    /\ (numbers = [] <->
        min_val < 1 \/ max_val > 1000 \/ quantity < 1
        \/ quantity > max_val - min_val + 1).
Proof.
  intros H.
  destruct (decide (invalid_ticket min_val max_val quantity)) as [Hi|Hv].
  - unfold get_numbers_ticket in H. apply ticket_guard in Hi as Hg.
    rewrite Hg in H. subst out. by exists [].
  - apply get_numbers_ticket_valid_iff in H as (res & Hres & ->); [|done].
    exists (sort res). split; [done|]. split; [|done].
    intros E. apply (f_equal length) in E.
    rewrite (Permutation_length (sort_Permutation res)),
      (sample_length _ _ _ Hres) in E.
    unfold invalid_ticket in Hv. cbn in E. lia.
Qed.

Lemma get_numbers_ticket_never_raises_witness :
  exists numbers : list Z,
    Ok [] = Ok numbers
    /\ (numbers = [] <-> 0 < 1 \/ 49 > 1000 \/ 6 < 1 \/ 6 > 49 - 0 + 1).
Proof. apply (get_numbers_ticket_never_raises 0 49 6 (Ok [])). reflexivity. Defined.

(** X7: drawing as many numbers as the range holds has one outcome, the
    whole range in ascending order. *)
Theorem get_numbers_ticket_full_draw min_val max_val out :
  1 <= min_val -> max_val <= 1000 -> min_val <= max_val ->
  get_numbers_ticket min_val max_val (max_val - min_val + 1) out
  <-> out = Ok (range min_val (max_val + 1)).
Proof.
  intros Hmin Hmax Hle.
  rewrite get_numbers_ticket_valid_iff by (unfold invalid_ticket; lia).
  assert (Hn : Z.to_nat (max_val - min_val + 1)
               = length (range min_val (max_val + 1)))
    by (rewrite length_range; f_equal; lia).
  rewrite Hn. split.
  - intros (res & Hres%sample_all & ->). f_equal.
    apply (StronglySorted_unique Z.le);
      [apply StronglySorted_merge_sort; apply _
      |apply StronglySorted_lt_le, range_sorted
      |by rewrite sort_Permutation].
  - intros ->. exists (range min_val (max_val + 1)). split.
    + apply sample_of_subset; [apply NoDup_seqZ|done].
    + by rewrite sort_sorted by apply StronglySorted_lt_le, range_sorted.
Qed.

Lemma get_numbers_ticket_full_draw_witness :
  get_numbers_ticket 3 5 (5 - 3 + 1) (Ok [3; 4; 5])
  <-> Ok [3; 4; 5] = Ok (range 3 (5 + 1)).
Proof. apply (get_numbers_ticket_full_draw 3 5); lia. Defined.

(** X8: every ascending list of [quantity] distinct numbers of the range
    is a possible outcome: no ticket is excluded by the draw. *)
Theorem get_numbers_ticket_every_ticket min_val max_val quantity numbers :
  1 <= min_val -> max_val <= 1000 -> 1 <= quantity ->
  Z.of_nat (length numbers) = quantity ->
  StronglySorted Z.lt numbers ->
  Forall (fun x => min_val <= x <= max_val) numbers ->
  get_numbers_ticket min_val max_val quantity (Ok numbers).
Proof.
  intros Hmin Hmax Hq Hlen Hs Hin.
  assert (Hnd := StronglySorted_lt_NoDup _ Hs).
  assert (Hsub : forall x, x ∈ numbers -> x ∈ range min_val (max_val + 1)).
  { intros x Hx. rewrite Forall_forall in Hin. apply elem_of_range.
    specialize (Hin x Hx). lia. }
  assert (Hsz : (length numbers <= length (range min_val (max_val + 1)))%nat).
  { apply submseteq_length, NoDup_submseteq; done. }
  rewrite length_range in Hsz.
  apply get_numbers_ticket_valid_iff; [unfold invalid_ticket; lia|].
  exists numbers. split.
  - replace (Z.to_nat quantity) with (length numbers) by lia.
    by apply sample_of_subset.
  - by rewrite sort_sorted by by apply StronglySorted_lt_le.
Qed.

Lemma get_numbers_ticket_every_ticket_witness :
  get_numbers_ticket 1 49 2 (Ok [7; 40]).
Proof.
  apply (get_numbers_ticket_every_ticket 1 49 2 [7; 40]);
    [lia|lia|lia|reflexivity| |];
    repeat constructor; lia.
Defined.

End LotteryMore.

(** ** [get_days_from_today] *)

Section DistanceMore.
Import Re Strptime.

Lemma strptime_iso y m d :
  0 <= y <= 9999 -> 1 <= m <= 12 -> 1 <= d <= 31 ->
  strptime (iso (Date y m d)) "%Y-%m-%d" = mkdate y m d.
Proof.
  intros Hy Hm Hd. unfold iso. cbn [year month day].
  destruct (pad4_digits y Hy) as (a & b & c & e & -> & Ha & Hb & Hc & He & Ey).
  change ((String a (String b (String c (String e ""))) ++ ?t)%string)
    with (String a (String b (String c (String e t)))).
  rewrite strptime_tail, Ha, Hb, Hc, He, Ey. cbn [andb].
  rewrite (tail_parse_table _ m d); [done|].
  apply In_all_tails. repeat split; [lia..|].
  exists (pad2 m), (pad2 d). split; [right; by left|]. split; [|done].
  unfold day_texts, pad2. destruct (d <? 10); [right|]; by left.
Qed.

Lemma tail_length t m d :
  In (t, m, d) all_tails -> (4 <= String.length t <= 6)%nat.
Proof.
  assert (H : forallb tail_length_check all_tails = true)
    by (vm_compute; reflexivity).
  rewrite forallb_forall in H. intros Hin. specialize (H _ Hin).
  unfold tail_length_check in H. cbn [fst] in H.
  apply andb_true_iff in H as [H1%Nat.leb_le H2%Nat.leb_le]. lia.
Qed.

(** X9: a string in the format 'YYYY-MM-DD' for a day the calendar does
    not have (February 30, April 31, February 29 of a common year, any
    day of year 0000) fails with the ValueError of line 18. *)
Theorem get_days_from_today_no_such_day today y m d :
  0 <= y <= 9999 -> 1 <= m <= 12 -> 1 <= d <= 31 ->
  valid_date (Date y m d) = false ->
  get_days_from_today today (iso (Date y m d))
  = Raise (ValueError invalid_date_format).
Proof.
  intros Hy Hm Hd Hv. unfold get_days_from_today.
  rewrite strptime_iso by done. unfold mkdate. by rewrite Hv.
Qed.

Lemma get_days_from_today_no_such_day_witness :
  get_days_from_today (Date 2024 1 1) (iso (Date 2023 2 29))
  = Raise (ValueError invalid_date_format).
Proof.
  apply (get_days_from_today_no_such_day (Date 2024 1 1) 2023 2 29);
    (lia || reflexivity).
Defined.

(** X10: a string the call returns for has 8 to 10 characters: nothing
    may come before or after the date, not even whitespace. *)
Theorem get_days_from_today_length today date_str n :
  get_days_from_today today date_str = Ok n ->
  (8 <= String.length date_str <= 10)%nat.
Proof.
  unfold get_days_from_today.
  destruct (strptime date_str "%Y-%m-%d") as [d|] eqn:E; [|done]. intros _.
  apply strptime_renderings in E as [Hv Hin].
  apply In_renderings in Hin as (mt & dt & Hmt & Hdt & ->).
  apply valid_date_iff in Hv as (_ & Hm & Hd).
  pose proof (days_in_month_le_31 (year d) _ Hm).
  assert (Ht : In (tail_text mt dt, month d, day d) all_tails).
  { apply In_all_tails. repeat split; [lia..|]. eauto. }
  apply tail_length in Ht. rewrite length_append. cbn [String.length pad4]. lia.
Qed.

Lemma get_days_from_today_length_witness :
  (8 <= String.length "2021-1-9" <= 10)%nat.
Proof.
  apply (get_days_from_today_length (Date 2024 1 1) "2021-1-9" 1087).
  vm_compute. reflexivity.
Defined.

(** X11: [k] days later the same string is [k] more days away. *)
Theorem get_days_from_today_later today k date_str n :
  valid_date today = true ->
  1 <= toordinal today + k <= MAXORDINAL ->
  get_days_from_today today date_str = Ok n ->
  get_days_from_today (fromordinal (toordinal today + k)) date_str
  = Ok (n + k).
Proof.
  intros Hv Hk. unfold get_days_from_today.
  destruct (strptime date_str "%Y-%m-%d") as [d|]; [|done].
  cbn [bind]. intros [= <-]. unfold sub_days, fromordinal.
  destruct (ord2ymd_ok _ Hk) as [_ ->]. f_equal. lia.
Qed.

Lemma get_days_from_today_later_witness :
  get_days_from_today (fromordinal (toordinal (Date 2024 1 1) + 30)) "2021-10-09"
  = Ok (814 + 30).
Proof.
  apply (get_days_from_today_later (Date 2024 1 1) 30 "2021-10-09" 814);
    [reflexivity|split; apply Z.leb_le; vm_compute; reflexivity
    |vm_compute; reflexivity].
Defined.

(** X12: distances between dates written as 'YYYY-MM-DD' add up along a
    chain of dates, and the distance back is the negative of the distance
    there. *)
Theorem get_days_from_today_chain a b c :
  valid_date a = true -> valid_date b = true -> valid_date c = true ->
  exists n_ab n_bc,
    get_days_from_today a (iso b) = Ok n_ab
    /\ get_days_from_today b (iso c) = Ok n_bc
    /\ get_days_from_today a (iso c) = Ok (n_ab + n_bc)
    /\ get_days_from_today b (iso a) = Ok (- n_ab).
Proof.
  intros Ha Hb Hc.
  assert (H : forall t d, valid_date d = true ->
                get_days_from_today t (iso d) = Ok (sub_days t d)).
  { intros t d Hd. unfold get_days_from_today.
    pose proof Hd as (Hy & Hm & Hdd)%valid_date_iff.
    pose proof (days_in_month_le_31 (year d) _ Hm).
    destruct d as [y m dd]. cbn [year month day] in *.
    rewrite strptime_iso by lia. unfold mkdate. by rewrite Hd. }
  exists (sub_days a b), (sub_days b c). rewrite !H by done.
  unfold sub_days. repeat split; f_equal; lia.
Qed.

Lemma get_days_from_today_chain_witness :
  exists n_ab n_bc,
    get_days_from_today (Date 2024 1 1) (iso (Date 2021 10 9)) = Ok n_ab
    /\ get_days_from_today (Date 2021 10 9) (iso (Date 2000 2 29)) = Ok n_bc
    /\ get_days_from_today (Date 2024 1 1) (iso (Date 2000 2 29))
       = Ok (n_ab + n_bc)
    /\ get_days_from_today (Date 2021 10 9) (iso (Date 2024 1 1)) = Ok (- n_ab).
Proof.
  apply (get_days_from_today_chain (Date 2024 1 1) (Date 2021 10 9) (Date 2000 2 29));
    reflexivity.
Defined.

Lemma strptime_dot_tail a b c d t :
  strptime (String a (String b (String c (String d t)))) "%Y.%m.%d"
  = if PyStr.isdigit a && PyStr.isdigit b && PyStr.isdigit c && PyStr.isdigit d
    then '(m, dd) ← dot_tail_parse t;
         mkdate (1000 * digit a + 100 * digit b + 10 * digit c + digit d) m dd
    else None.
Proof.
  unfold strptime.
  change (pattern "%Y.%m.%d")
    with (Some [year_regex; Chr "."; default Eps (directive "m");
                Chr "."; default Eps (directive "d")]).
  cbn [mbind option_bind]. unfold match_.
  change (sequence _) with (Cat year_regex dot_tail_regex).
  rewrite run_year_then.
  destruct (_ && _) eqn:E; [|reflexivity].
  rewrite !andb_true_iff in E. destruct E as [[[Ha Hb] Hc] Hd].
  cbv zeta. unfold dot_tail_parse, match_.
  destruct (run dot_tail_regex t) as [|[[t2 g2] s2] l]; [reflexivity|].
  cbn [map head mbind option_bind].
  destruct (String.eqb s2 ""); [|reflexivity].
  rewrite !field_cons.
  change (Ascii.eqb "Y" "Y") with true. change (Ascii.eqb "Y" "m") with false.
  change (Ascii.eqb "Y" "d") with false. cbv iota.
  rewrite int_4_digits by done. cbn [mbind option_bind].
  destruct (field g2 "m" 1); [|reflexivity].
  cbn [mbind option_bind].
  destruct (field g2 "d" 1); reflexivity.
Qed.

Lemma strptime_dot_short s :
  (String.length s < 4)%nat -> strptime s "%Y.%m.%d" = None.
Proof.
  intros H. unfold strptime.
  change (pattern "%Y.%m.%d")
    with (Some [year_regex; Chr "."; default Eps (directive "m");
                Chr "."; default Eps (directive "d")]).
  cbn [mbind option_bind]. unfold match_.
  change (sequence _) with (Cat year_regex dot_tail_regex).
  generalize dot_tail_regex. intros T. unfold year_regex.
  destruct s as [|a [|b [|c [|d s]]]]; cbn in H; try lia;
    cbn [run one_char];
    repeat (destruct (PyStr.isdigit _); cbn [flat_map map app one_char]);
    reflexivity.
Qed.

Lemma starts_with_separator sep (R : regex) t x :
  head (run (Cat (Chr sep) R) t) = Some x -> exists r, t = String sep r.
Proof.
  destruct t as [|c t]; [done|]. cbn [run one_char].
  destruct (Ascii.eqb_spec sep c) as [<-|]; [eauto|done].
Qed.

Lemma tail_parse_dash t x : tail_parse t = Some x -> exists r, t = String "-" r.
Proof.
  unfold tail_parse, match_.
  destruct (head (run tail_regex t)) as [o|] eqn:E; [|done]. intros _.
  by apply (starts_with_separator "-" _ _ _ E).
Qed.

Lemma dot_tail_parse_dot t x :
  dot_tail_parse t = Some x -> exists r, t = String "." r.
Proof.
  unfold dot_tail_parse, match_.
  destruct (head (run dot_tail_regex t)) as [o|] eqn:E; [|done]. intros _.
  by apply (starts_with_separator "." _ _ _ E).
Qed.

(** X13: the two date formats of the module exclude each other: a string
    that line 82 takes as a birthday ("%Y.%m.%d") is never taken by
    [get_days_from_today]. *)
Theorem get_days_from_today_rejects_birthdays today s d :
  strptime s "%Y.%m.%d" = Some d ->
  get_days_from_today today s = Raise (ValueError invalid_date_format).
Proof.
  intros Hdot. unfold get_days_from_today.
  destruct (strptime s "%Y-%m-%d") as [d'|] eqn:Hdash; [|done]. exfalso.
  destruct s as [|a [|b [|c [|e t]]]];
    try (rewrite strptime_short in Hdash by (cbn; lia); discriminate).
  rewrite strptime_tail in Hdash. rewrite strptime_dot_tail in Hdot.
  destruct (_ && _); [|done].
  destruct (tail_parse t) as [x|] eqn:E1; [|done].
  destruct (dot_tail_parse t) as [x'|] eqn:E2; [|done].
  apply tail_parse_dash in E1 as [r ->].
  by apply dot_tail_parse_dot in E2 as [r' [=]].
Qed.

Lemma get_days_from_today_rejects_birthdays_witness :
  get_days_from_today (Date 2024 1 20) "1990.01.27"
  = Raise (ValueError invalid_date_format).
Proof.
  apply (get_days_from_today_rejects_birthdays (Date 2024 1 20) "1990.01.27"
           (Date 1990 1 27)).
  vm_compute. reflexivity.
Defined.

Lemma dot_tail_table m d :
  1 <= m <= 12 -> 1 <= d <= 31 ->
  dot_tail_parse (String "." (pad2 m ++ String "." (pad2 d))) = Some (m, d).
Proof.
  intros Hm Hd.
  assert (H : forallb dot_tail_check dot_tails = true)
    by (vm_compute; reflexivity).
  rewrite forallb_forall in H.
  specialize (H (String "." (pad2 m ++ String "." (pad2 d)), m, d)).
  unfold dot_tail_check in H. cbn [fst snd] in H.
  assert (Hin : In (String "." (pad2 m ++ String "." (pad2 d)), m, d) dot_tails).
  { apply list_elem_of_In. unfold dot_tails.
    apply list_elem_of_bind. exists m. split; [|apply elem_of_seqZ; lia].
    apply list_elem_of_bind. exists d. split; [|apply elem_of_seqZ; lia].
    by apply list_elem_of_singleton. }
  specialize (H Hin).
  destruct (dot_tail_parse _) as [[m' d']|]; [|done].
  by apply andb_true_iff in H as [->%Z.eqb_eq ->%Z.eqb_eq].
Qed.

Lemma decimal_pad4 y : 1000 <= y <= 9999 -> decimal y = pad4 y.
Proof.
  intros Hy.
  assert (H : forallb year_check (seqZ 1000 9000) = true)
    by (vm_compute; reflexivity).
  rewrite forallb_forall in H. apply String.eqb_eq, H, list_elem_of_In, elem_of_seqZ.
  lia.
Qed.

(** Reading back what strftime wrote. *)
Lemma strptime_strftime d :
  valid_date d = true -> 1000 <= year d ->
  strptime (strftime d "%Y.%m.%d") "%Y.%m.%d" = Some d.
Proof.
  intros Hv Hy1000. pose proof Hv as (Hy & Hm & Hd)%valid_date_iff.
  pose proof (days_in_month_le_31 (year d) _ Hm).
  rewrite strftime_dots, decimal_pad4 by lia.
  destruct (pad4_digits (year d)) as (a & b & c & e & -> & Ha & Hb & Hc & He & Ey);
    [lia|].
  change ((String a (String b (String c (String e ""))) ++ ?t)%string)
    with (String a (String b (String c (String e t)))).
  rewrite strptime_dot_tail, Ha, Hb, Hc, He, Ey. cbn [andb].
  rewrite dot_tail_table by lia. cbn [mbind option_bind].
  unfold mkdate. destruct d. cbn [year month day] in *. by rewrite Hv.
Qed.

End DistanceMore.

(** ** [get_upcoming_birthdays] *)

Section BirthdayMore.

Lemma loop_app today us1 us2 acc :
  loop today (us1 ++ us2) acc
  = (out1 <- loop today us1 acc ;; loop today us2 out1).
Proof.
  revert acc. induction us1 as [|u us1 IH]; intros acc; [done|].
  cbn [app loop]. destruct (loop_body today u) as [g|e]; [|done].
  cbn [bind]. apply IH.
Qed.

Lemma loop_acc today users acc :
  loop today users acc
  = (out <- loop today users [] ;; Ok (acc ++ out)).
Proof.
  revert acc. induction users as [|u users IH]; intros acc.
  - cbn. by rewrite app_nil_r.
  - cbn [loop]. destruct (loop_body today u) as [g|e]; [|done].
    cbn [bind]. rewrite (IH (acc ++ option_list g)), (IH ([] ++ option_list g)).
    destruct (loop today users []) as [out|e]; [|done].
    cbn [bind app]. by rewrite app_assoc.
Qed.

(** X14: the call on a list in two parts is the call on the first part
    followed by the call on the second: the first exception of either
    leaves the call, and otherwise the greetings are those of the first
    part followed by those of the second. *)
Theorem get_upcoming_birthdays_app today us1 us2 :
  get_upcoming_birthdays today (us1 ++ us2)
  = (out1 <- get_upcoming_birthdays today us1 ;;
     out2 <- get_upcoming_birthdays today us2 ;;
     Ok (out1 ++ out2)).
Proof.
  unfold get_upcoming_birthdays. rewrite loop_app.
  destruct (loop today us1 []) as [out1|e]; [|done].
  cbn [bind]. apply loop_acc.
Qed.

(** What an iteration that raises nothing did. *)
Lemma loop_body_Ok today user o :
  loop_body today user = Ok o ->
  if due today user then
    exists name birthday birthday_date occurrence d,
      user !! "name" = Some name
      /\ user !! "birthday" = Some birthday
      /\ Strptime.strptime birthday "%Y.%m.%d" = Some birthday_date
      /\ next_birthday today birthday_date = Ok occurrence
      /\ 0 <= sub_days occurrence today <= 7
      /\ move_off_weekend occurrence = Ok d
      /\ o = Some (greeting name d)
  else o = None.
Proof.
  unfold loop_body, due.
  destruct (user !! "birthday") as [birthday|] eqn:Hb;
    [|cbn; by intros [= <-]].
  cbn [mbind option_bind].
  destruct (Strptime.strptime birthday "%Y.%m.%d") as [bd|] eqn:Hp;
    [|by intros [= <-]].
  destruct (next_birthday today bd) as [occ|] eqn:Hocc; [|done].
  cbn [bind]. destruct (_ && _) eqn:Hw; [|by intros [= <-]].
  apply andb_true_iff in Hw as [H0%Z.leb_le H7%Z.leb_le].
  destruct (move_off_weekend occ) as [d|] eqn:Hd; [|done].
  cbn [bind]. unfold getitem.
  destruct (user !! "name") as [name|] eqn:Hn; [|done].
  cbn [bind]. intros [= <-]. by exists name, birthday, bd, occ, d.
Qed.

Lemma omap_greetings today users gs :
  Forall2 (fun user g => loop_body today user = Ok g) users gs ->
  (fun g : gmap string string => g !! "name") <$> omap id gs
  = (fun user : gmap string string => user !! "name")
      <$> List.filter (due today) users.
Proof.
  induction 1 as [|user o users gs Hb _ IH]; [done|].
  apply loop_body_Ok in Hb. cbn [List.filter omap list_omap].
  destruct (due today user).
  - destruct Hb as (name & ? & ? & ? & d & Hn & _ & _ & _ & _ & _ & ->).
    cbn [id fmap list_fmap]. rewrite Hn.
    assert (greeting name d !! "name" = Some name) as ->
      by (unfold greeting; by rewrite lookup_insert_eq).
    f_equal. apply IH.
  - subst o. cbn. apply IH.
Qed.

(** X15: when the call returns, the names of the greetings are the names
    of the users that pass the test of line 103, one greeting for each,
    in the order of the input. *)
Theorem get_upcoming_birthdays_names today users out :
  get_upcoming_birthdays today users = Ok out ->
  (fun g : gmap string string => g !! "name") <$> out
  = (fun user : gmap string string => user !! "name")
      <$> List.filter (due today) users.
Proof.
  intros (gs & Hgs & ->)%loop_Ok. cbn [app]. by apply omap_greetings.
Qed.

Lemma get_upcoming_birthdays_names_witness :
  (fun g : gmap string string => g !! "name")
    <$> [ {[ "name" := "Jane Smith"; "congratulation_date" := "2024.01.29" ]} ]
  = (fun user : gmap string string => user !! "name")
      <$> List.filter (due (Date 2024 1 20))
            [ {[ "name" := "Old Tom"; "birthday" := "1950.03.01" ]};
              {[ "name" := "Jane Smith"; "birthday" := "1990.01.27" ]} ].
Proof.
  apply (get_upcoming_birthdays_names (Date 2024 1 20)
           [ {[ "name" := "Old Tom"; "birthday" := "1950.03.01" ]};
             {[ "name" := "Jane Smith"; "birthday" := "1990.01.27" ]} ]).
  vm_compute. reflexivity.
Defined.

Lemma greeting_in_window today users out g :
  get_upcoming_birthdays today users = Ok out ->
  g ∈ out ->
  exists name d,
    g = greeting name d
    /\ valid_date d = true
    /\ 0 <= sub_days d today <= 9
    /\ (7 < sub_days d today -> weekday d = 0).
Proof.
  intros Hout Hg.
  apply (get_upcoming_birthdays_elem_of _ _ _ _ Hout) in Hg
    as (user & _ & Hbody).
  apply loop_body_Ok in Hbody. destruct (due today user); [|done].
  destruct Hbody as (name & ? & bd & occ & d & _ & _ & _ & Hocc & Hw & Hd & E).
  injection E as ->.
  destruct (move_off_weekend_ok occ) as (d' & Hd' & Hv & Ho & Hwd);
    [by eapply next_birthday_valid|].
  rewrite Hd in Hd'. injection Hd' as <-.
  exists name, d. split; [done|]. split; [done|].
  unfold sub_days, weekend_shift, weekday in *.
  destruct (Z.eqb_spec ((toordinal occ + 6) mod 7) 5);
    [|destruct (Z.eqb_spec ((toordinal occ + 6) mod 7) 6)];
    split; try lia; intros; divlia.
Qed.

(** X16: every greeting returned is for a date from today to nine days
    ahead, never a past one; a date more than seven days ahead is a
    Monday, the one a weekend birthday was moved to. *)
Theorem get_upcoming_birthdays_window today users out g :
  get_upcoming_birthdays today users = Ok out ->
  g ∈ out ->
  exists name d,
    g = greeting name d
    /\ valid_date d = true
    /\ 0 <= sub_days d today <= 9
    /\ (7 < sub_days d today -> weekday d = 0).
Proof. apply greeting_in_window. Qed.

Lemma get_upcoming_birthdays_window_witness :
  exists name d,
    ({[ "name" := "Jane Smith"; "congratulation_date" := "2024.01.29" ]}
       : gmap string string) = greeting name d
    /\ valid_date d = true
    /\ 0 <= sub_days d (Date 2024 1 20) <= 9
    /\ (7 < sub_days d (Date 2024 1 20) -> weekday d = 0).
Proof.
  apply (get_upcoming_birthdays_window (Date 2024 1 20)
           [ {[ "name" := "Jane Smith"; "birthday" := "1990.01.27" ]} ]
           [ {[ "name" := "Jane Smith";
                "congratulation_date" := "2024.01.29" ]} ]).
  - vm_compute. reflexivity.
  - apply list_elem_of_here.
Defined.

Lemma loop_body_Raise today user e :
  valid_date today = true -> year today < 9999 ->
  loop_body today user = Raise e <->
  e = KeyError "name" /\ due today user = true /\ user !! "name" = None.
Proof.
  intros Hv Hlast. unfold loop_body, due.
  destruct (_ ≫= _) as [bd|] eqn:E; [|intuition congruence].
  assert (Hb : valid_date bd = true).
  { destruct (user !! "birthday") as [b|]; [|done].
    cbn [mbind option_bind] in E. by eapply strptime_valid. }
  destruct (next_birthday_total today bd) as [occ Hocc]; [done..|].
  rewrite Hocc. cbn [bind]. destruct (_ && _); [|intuition congruence].
  destruct (move_off_weekend_ok occ) as (d & -> & _);
    [by eapply next_birthday_valid|].
  cbn [bind]. unfold getitem.
  destruct (user !! "name") as [name|]; cbn [bind]; intuition congruence.
Qed.

Lemma loop_Raise today users acc e :
  valid_date today = true -> year today < 9999 ->
  loop today users acc = Raise e <->
  e = KeyError "name"
  /\ exists user, user ∈ users /\ due today user = true
                  /\ user !! "name" = None.
Proof.
  intros Hv Hlast. revert acc.
  induction users as [|u users IH]; intros acc; cbn [loop].
  - split; [done|]. intros (_ & user & Hin & _). by apply elem_of_nil in Hin.
  - destruct (loop_body today u) as [o|e'] eqn:Hb; cbn [bind].
    + rewrite IH. split; intros (-> & user & Hin & Hd & Hn); (split; [done|]).
      * exists user. split; [by right|done].
      * apply elem_of_cons in Hin as [->|Hin]; [|by exists user].
        assert (loop_body today u = Raise (KeyError "name"))
          by by apply loop_body_Raise.
        congruence.
    + apply loop_body_Raise in Hb as (-> & Hd & Hn); [|done..]. split.
      * intros [= <-]. split; [done|]. exists u. split; [by left|done].
      * by intros (-> & _).
Qed.

(** X17: with today before year 9999, the call fails in one way only:
    with KeyError('name'), and exactly when some user that passes the
    test of line 103 has no "name". *)
Theorem get_upcoming_birthdays_failure today users e :
  valid_date today = true -> year today < 9999 ->
  get_upcoming_birthdays today users = Raise e <->
  e = KeyError "name"
  /\ exists user, user ∈ users /\ due today user = true
                  /\ user !! "name" = None.
Proof. intros. by apply loop_Raise. Qed.

Lemma get_upcoming_birthdays_failure_witness :
  get_upcoming_birthdays (Date 2024 1 20) [ {[ "birthday" := "1990.01.22" ]} ]
  = Raise (KeyError "name")
  <-> KeyError "name" = KeyError "name"
      /\ exists user,
          user ∈ [ ({[ "birthday" := "1990.01.22" ]} : gmap string string) ]
          /\ due (Date 2024 1 20) user = true /\ user !! "name" = None.
Proof.
  apply (get_upcoming_birthdays_failure (Date 2024 1 20)
           [ {[ "birthday" := "1990.01.22" ]} ]); [reflexivity|].
  cbn [year]. lia.
Defined.

Lemma birthday_in_year_fields birthday_date y occ :
  valid_date birthday_date = true ->
  birthday_in_year birthday_date y = Ok occ ->
  valid_date occ = true /\ year occ = y /\ month occ = month birthday_date
  /\ (day occ = day birthday_date
      \/ (month birthday_date = 2 /\ day birthday_date = 29
          /\ day occ = 28 /\ is_leap y = false)).
Proof.
  intros (Hy0 & Hm & Hd)%valid_date_iff H.
  pose proof (birthday_in_year_valid _ _ _ H) as Hv. split; [done|].
  revert H Hv. unfold birthday_in_year, replace, mkdate.
  cbn [from_option]. unfold id.
  destruct (valid_date (Date y (month birthday_date) (day birthday_date)))
    eqn:E1.
  { intros [= <-] _. cbn [year month day]. auto. }
  destruct (valid_date (Date y (month birthday_date) (day birthday_date - 1)))
    eqn:E2; [|done].
  intros [= <-] _. cbn [year month day]. split; [done|]. split; [done|].
  right. apply valid_date_iff in E2 as (Hy & _ & Hd2). cbn [year month day] in *.
  destruct (days_in_month_any_year (year birthday_date) y _ Hm)
    as [H|(Hm2 & H1 & H2)].
  - assert (valid_date (Date y (month birthday_date) (day birthday_date)) = true)
      by (apply valid_date_iff; cbn [year month day]; lia).
    congruence.
  - assert (day birthday_date = 29).
    { destruct (Z.eq_dec (day birthday_date) 29); [done|].
      assert (valid_date (Date y (month birthday_date) (day birthday_date)) = true)
        by (apply valid_date_iff; cbn [year month day]; lia).
      congruence. }
    repeat split; [done|done|lia|].
    unfold days_in_month in H2. rewrite Hm2 in H2.
    destruct (is_leap y); [discriminate|done].
Qed.

Lemma toordinal_day_of_year d :
  toordinal d = days_before_year (year d) + day_of_year d.
Proof. unfold toordinal, ymd2ord, day_of_year. lia. Qed.

(** X18: the occurrence lines 86-99 compute is never before today and at
    most 365 days after it: the lower test of line 103 always holds. *)
Theorem next_birthday_within_a_year today birthday_date occurrence :
  valid_date today = true -> valid_date birthday_date = true ->
  next_birthday today birthday_date = Ok occurrence ->
  0 <= sub_days occurrence today <= 365.
Proof.
  intros Hv Hb. unfold next_birthday.
  destruct (birthday_in_year birthday_date (year today)) as [this|] eqn:E;
    [|done].
  cbn [bind].
  apply birthday_in_year_fields in E as (Hvt & Hyt & Hmt & Hdt); [|done].
  pose proof (toordinal_lt this today Hvt Hv) as Hlt.
  pose proof (day_of_year_bounds today Hv) as Hbt.
  pose proof (day_of_year_bounds this Hvt) as Hbth.
  unfold sub_days. rewrite (toordinal_day_of_year occurrence),
    (toordinal_day_of_year today).
  rewrite (toordinal_day_of_year this), (toordinal_day_of_year today),
    Hyt in Hlt.
  destruct (lt this today).
  - intros E2.
    apply birthday_in_year_fields in E2 as (Hvo & Hyo & Hmo & Hdo); [|done].
    pose proof (day_of_year_bounds occurrence Hvo) as Hbo.
    rewrite Hyo, days_before_year_succ.
    assert (Hlt' : day_of_year this < day_of_year today)
      by (pose proof (proj1 Hlt eq_refl); lia).
    clear Hlt. apply valid_date_iff in Hb as (_ & Hm & _).
    remember (day_of_year today) as T eqn:HT. clear HT.
    revert Hlt' Hbo Hbt Hdt Hdo. unfold day_of_year, days_before_month.
    rewrite Hyt, Hyo, Hmt, Hmo. clear Hbth.
    destruct (is_leap (year today)), (is_leap (year today + 1));
      destruct (month_cases _ Hm) as
        [->|[->|[->|[->|[->|[->|[->|[->|[->|[->|[->| ->]]]]]]]]]]];
      eval_month; intros ? ? ? [?|(? & ? & ? & ?)] [?|(? & ? & ? & ?)];
      first [discriminate | lia].
  - intros [= <-]. rewrite Hyt in *.
    assert (~ day_of_year this < day_of_year today)
      by (intros H; assert (false = true) by (apply Hlt; lia); done).
    destruct (is_leap (year today)); lia.
Qed.

Lemma next_birthday_within_a_year_witness :
  0 <= sub_days (Date 2025 2 28) (Date 2024 3 5) <= 365.
Proof.
  apply (next_birthday_within_a_year (Date 2024 3 5) (Date 2000 2 29)
           (Date 2025 2 28)); reflexivity.
Defined.

Lemma congratulation_date_weekday today users out g :
  get_upcoming_birthdays today users = Ok out ->
  g ∈ out ->
  exists name d,
    g = greeting name d /\ valid_date d = true /\ 0 <= weekday d <= 4.
Proof.
  intros Hout Hg.
  apply (get_upcoming_birthdays_elem_of _ _ _ _ Hout) in Hg
    as (user & _ & Hbody).
  by apply loop_body_weekday in Hbody.
Qed.

(** X19: from year 1000 on, a congratulation_date is in the format line 82
    reads: parsed as a birthday it gives back the date it was written
    from, a Monday to Friday from today to nine days ahead. *)
Theorem congratulation_date_reads_back today users out g :
  valid_date today = true -> 1000 <= year today ->
  get_upcoming_birthdays today users = Ok out ->
  g ∈ out ->
  exists text d,
    g !! "congratulation_date" = Some text
    /\ Strptime.strptime text "%Y.%m.%d" = Some d
    /\ text = Strptime.strftime d "%Y.%m.%d"
    /\ 0 <= weekday d <= 4
    /\ 0 <= sub_days d today <= 9.
Proof.
  intros Hv Hy Hout Hg.
  destruct (congratulation_date_weekday _ _ _ _ Hout Hg) as (name & d & -> & Hvd & Hw).
  destruct (greeting_in_window _ _ _ _ Hout Hg)
    as (name' & d' & E & Hvd' & Hwin & _).
  assert (d' = d) as ->.
  { apply (f_equal (fun m : gmap string string => m !! "congratulation_date")) in E.
    unfold greeting in E.
    rewrite !lookup_insert_ne, !lookup_singleton_eq in E by done.
    injection E as E. symmetry. by apply strftime_inj. }
  exists (Strptime.strftime d "%Y.%m.%d"), d.
  split; [unfold greeting; by rewrite lookup_insert_ne, lookup_singleton_eq|].
  split; [|done].
  apply strptime_strftime; [done|].
  destruct (Z_lt_le_dec (year d) (year today)) as [Hlt|]; [|lia].
  assert (Hlt' : lt d today = true)
    by (unfold lt; apply orb_true_iff; left; by apply Z.ltb_lt).
  apply toordinal_lt in Hlt'; [|done..]. unfold sub_days in Hwin. lia.
Qed.

Lemma congratulation_date_reads_back_witness :
  exists text d,
    ({[ "name" := "Jane Smith"; "congratulation_date" := "2024.01.29" ]}
       : gmap string string) !! "congratulation_date" = Some text
    /\ Strptime.strptime text "%Y.%m.%d" = Some d
    /\ text = Strptime.strftime d "%Y.%m.%d"
    /\ 0 <= weekday d <= 4
    /\ 0 <= sub_days d (Date 2024 1 20) <= 9.
Proof.
  apply (congratulation_date_reads_back (Date 2024 1 20)
           [ {[ "name" := "Jane Smith"; "birthday" := "1990.01.27" ]} ]
           [ {[ "name" := "Jane Smith";
                "congratulation_date" := "2024.01.29" ]} ]).
  - reflexivity.
  - cbn [year]. lia.
  - vm_compute. reflexivity.
  - apply list_elem_of_here.
Defined.

End BirthdayMore.
